(** * SwiftNavigation: the C bridge over Recast and Detour

    A shallow embedding of [Sources/CRecast/Bridging.cpp] and
    [Sources/CRecast/include/Bridging.h]:

    - [bindingRunBulk], the baking pipeline with its staged clean-up;
    - [bindingGenerateDetour], which serialises a baked mesh for Detour;
    - [bindingExtractVertsAndTriangles], which flattens a polygon mesh into
      a vertex buffer and a triangle index buffer.

    Conventions of the embedding.

    - Recast and Detour are external libraries.  Every call into them is an
      event of a trace; whether a fallible call succeeds is read from an
      environment (an oracle), so that a statement quantified over all
      environments covers every execution of the bridge.
    - C [int] values are modelled by [Z].  The counters of this file are
      bounded by the sizes of the arrays they index; signed overflow is
      undefined in C and is not modelled.
    - C [float] is an abstract type with the operations the bridge uses
      ([CFloat]): the statements hold for every implementation of them.
    - A dereference of a null pointer and an access outside an array are
      undefined in C; the embedding stops there with [Fault]. *)

From Stdlib Require Import ZArith QArith Lia.
From stdpp Require Import base list.

Local Open Scope Z_scope.

(** ** C floats and library constants *)

(** The [float] operations used by the bridge: addition, multiplication,
    conversion from [int] and the literal [0.1f]. *)
Class CFloat (F : Type) := {
  fadd : F -> F -> F;
  fmul : F -> F -> F;
  float_of_int : Z -> F;
  f0_1 : F
}.

(** Constants declared by the libraries' headers ([Recast.h],
    [DetourNavMesh.h]), which are not part of this repository: they are
    parameters of the development. *)
Class LibConstants := {
  RC_MESH_NULL_IDX : Z;
  DT_VERTS_PER_POLYGON : Z
}.

(** Exact rational arithmetic, an instance used to run the definitions. *)
#[export] Instance Q_CFloat : CFloat Q := {|
  fadd := Qplus;
  fmul := Qmult;
  float_of_int := inject_Z;
  f0_1 := (1 # 10)%Q
|}.

(** The values the headers of Recast and Detour give the constants. *)
#[export] Instance recast_constants : LibConstants := {|
  RC_MESH_NULL_IDX := 65535;
  DT_VERTS_PER_POLYGON := 6
|}.

(** What a C function that returns a pointer (or a status) can do. *)
Inductive outcome (A : Type) : Type :=
| Fault
| Null
| Ret (a : A).
Arguments Fault {A}.
Arguments Null {A}.
Arguments Ret {A} a.

(** ** Bridging.h *)

Inductive BCodeStatus : Set :=
| BCODE_OK
| BCODE_ERR_MEMORY
| BCODE_ERR_RASTERIZE
| BCODE_ERR_BUILD_COMPACT_HEIGHTFIELD
| BCODE_ERR_BUILD_LAYER_REGIONS
| BCODE_ERR_BUILD_REGIONS_MONOTONE
| BCODE_ERR_BUILD_DISTANCE_FIELD
| BCODE_ERR_BUILD_REGIONS
| BCODE_ERR_ALLOC_CONTOUR
| BCODE_ERR_BUILD_CONTOUR
| BCODE_ERR_UNKNOWN
| BCODE_ERR_ALLOC_POLYMESH
| BCODE_ERR_BUILD_POLY_MESH
| BCODE_ERR_ALLOC_DETAIL_POLY_MESH
| BCODE_ERR_BUILD_DETAIL_POLY_MESH.

Definition BCodeStatus_value (c : BCodeStatus) : Z :=
  match c with
  | BCODE_OK => 0
  | BCODE_ERR_MEMORY => 1
  | BCODE_ERR_RASTERIZE => 2
  | BCODE_ERR_BUILD_COMPACT_HEIGHTFIELD => 3
  | BCODE_ERR_BUILD_LAYER_REGIONS => 4
  | BCODE_ERR_BUILD_REGIONS_MONOTONE => 5
  | BCODE_ERR_BUILD_DISTANCE_FIELD => 6
  | BCODE_ERR_BUILD_REGIONS => 7
  | BCODE_ERR_ALLOC_CONTOUR => 8
  | BCODE_ERR_BUILD_CONTOUR => 9
  | BCODE_ERR_UNKNOWN => 10
  | BCODE_ERR_ALLOC_POLYMESH => 11
  | BCODE_ERR_BUILD_POLY_MESH => 12
  | BCODE_ERR_ALLOC_DETAIL_POLY_MESH => 13
  | BCODE_ERR_BUILD_DETAIL_POLY_MESH => 14
  end.

Inductive BDetourStatus : Set :=
| BD_OK
| BD_ERR_VERTICES
| BD_ERR_BUILD_NAVMESH
| BD_ERR_ALLOC_NAVMESH
| BD_ERR_INIT_NAVMESH.

Definition BDetourStatus_value (c : BDetourStatus) : Z :=
  match c with
  | BD_OK => 0
  | BD_ERR_VERTICES => 1
  | BD_ERR_BUILD_NAVMESH => 2
  | BD_ERR_ALLOC_NAVMESH => 3
  | BD_ERR_INIT_NAVMESH => 4
  end.

Definition FILTER_LOW_HANGING_OBSTACLES : Z := 1.
Definition FILTER_LEDGE_SPANS : Z := 2.
Definition FILTER_WALKABLE_LOW_HEIGHT_SPANS : Z := 4.
Definition PARTITION_MASK : Z := 24.
Definition PARTITION_WATERSHED : Z := 8.
Definition PARTITION_MONOTONE : Z := 16.
Definition PARTITION_LAYER : Z := 0.

(** ** The structures of Recast the bridge reads and writes

    Only the fields the bridge touches are kept.  [verts], [polys], [flags]
    and [areas] hold [unsigned short] ([unsigned char] for [areas]) values. *)

Module rcConfig.
Section fields.
Context {F : Type}.
Record t := mk {
  cs : F;
  ch : F;
  maxVertsPerPoly : Z
}.
End fields.
Arguments t : clear implicits.
End rcConfig.

Module rcPolyMesh.
Section fields.
Context {F : Type}.
Record t := mk {
  verts : list Z;
  polys : list Z;
  flags : list Z;
  areas : list Z;
  nverts : Z;
  npolys : Z;
  nvp : Z;
  bmin : F * F * F;
  bmax : F * F * F;
  cs : F;
  ch : F
}.
Definition with_flags (m : t) (fl : list Z) : t :=
  mk (verts m) (polys m) fl (areas m) (nverts m) (npolys m) (nvp m)
     (bmin m) (bmax m) (cs m) (ch m).
End fields.
Arguments t : clear implicits.
End rcPolyMesh.

Module rcPolyMeshDetail.
Section fields.
Context {F : Type}.
Record t := mk {
  meshes : list Z;
  verts : list F;
  tris : list Z;
  nmeshes : Z;
  nverts : Z;
  ntris : Z
}.
End fields.
Arguments t : clear implicits.
End rcPolyMeshDetail.

Module BindingBulkResult.
Section fields.
Context {F : Type}.
Record t := mk {
  code : BCodeStatus;
  cs : F;
  ch : F;
  poly_mesh : option (rcPolyMesh.t F);
  poly_mesh_detail : option (rcPolyMeshDetail.t F);
  max_verts_per_poly : Z
}.
Definition with_code (r : t) (c : BCodeStatus) : t :=
  mk c (cs r) (ch r) (poly_mesh r) (poly_mesh_detail r) (max_verts_per_poly r).
Definition with_poly_mesh (r : t) (p : option (rcPolyMesh.t F)) : t :=
  mk (code r) (cs r) (ch r) p (poly_mesh_detail r) (max_verts_per_poly r).
Definition with_poly_mesh_detail (r : t) (d : option (rcPolyMeshDetail.t F)) : t :=
  mk (code r) (cs r) (ch r) (poly_mesh r) d (max_verts_per_poly r).
End fields.
Arguments t : clear implicits.
End BindingBulkResult.

Module BindingVertsAndTriangles.
Section fields.
Context {F : Type}.
Record t := mk {
  nverts : Z;
  ntris : Z;
  verts : list F;
  triangles : list Z
}.
End fields.
Arguments t : clear implicits.
End BindingVertsAndTriangles.

(** ** Heap resources, library calls and traces *)

(** The heap objects [bindingRunBulk] allocates: the five stage structures
    of Recast, the per-triangle area array and the result envelope. *)
Inductive resource : Set :=
| Res_Heightfield
| Res_CompactHeightfield
| Res_ContourSet
| Res_PolyMesh
| Res_PolyMeshDetail
| Res_tri_areas
| Res_result.

(** The functions of Recast that [bindingRunBulk] calls on its structures. *)
Inductive call : Set :=
| rcCreateHeightfield
| rcMarkWalkableTriangles
| rcRasterizeTriangles
| rcFilterLowHangingWalkableObstacles
| rcFilterLedgeSpans
| rcFilterWalkableLowHeightSpans
| rcBuildCompactHeightfield
| rcErodeWalkableArea
| rcBuildLayerRegions
| rcBuildRegionsMonotone
| rcBuildDistanceField
| rcBuildRegions
| rcBuildContours
| rcBuildPolyMesh
| rcBuildPolyMeshDetail.

(** [Alloc r ok]: an allocation of [r] was requested and succeeded or not;
    [Free r]: [r] was released; [Call c ret]: the library function [c] was
    called and returned [ret] ([true] is logged for a function whose result
    is [void] or ignored); [Printf]: the diagnostic on an empty mesh. *)
Inductive event : Set :=
| Alloc (r : resource) (ok : bool)
| Free (r : resource)
| Call (c : call) (ret : bool)
| Printf.

#[export] Instance resource_eq_dec : EqDecision resource.
Proof. solve_decision. Defined.
#[export] Instance call_eq_dec : EqDecision call.
Proof. solve_decision. Defined.
#[export] Instance event_eq_dec : EqDecision event.
Proof. solve_decision. Defined.
#[export] Instance BCodeStatus_eq_dec : EqDecision BCodeStatus.
Proof. solve_decision. Defined.
#[export] Instance BDetourStatus_eq_dec : EqDecision BDetourStatus.
Proof. solve_decision. Defined.

(** How often an event occurs in a trace; how many times [r] was allocated
    and how many times it was released. *)
Definition occurs (ev : event) (t : list event) : nat :=
  count_occ event_eq_dec t ev.
Definition allocs (r : resource) (t : list event) : nat :=
  occurs (Alloc r true) t.
Definition frees (r : resource) (t : list event) : nat :=
  occurs (Free r) t.

(** [r] is held at the end of [t]: allocated once and not released. *)
Definition held (r : resource) (t : list event) : Prop :=
  allocs r t = 1%nat /\ frees r t = 0%nat.
(** [r] is not held at the end of [t]: it was never allocated, or it was
    allocated once and released once. *)
Definition released (r : resource) (t : list event) : Prop :=
  allocs r t = frees r t /\ (frees r t <= 1)%nat.

(** The calls of the region-partitioning step found in a trace. *)
Definition is_partition_call (c : call) : bool :=
  match c with
  | rcBuildLayerRegions | rcBuildRegionsMonotone
  | rcBuildDistanceField | rcBuildRegions => true
  | _ => false
  end.
Definition partition_calls (t : list event) : list event :=
  List.filter (fun e => match e with Call c _ => is_partition_call c | _ => false end) t.

(** The three region-partitioning strategies. *)
Inductive strategy : Set := Layer | Monotone | Watershed.
#[export] Instance strategy_eq_dec : EqDecision strategy.
Proof. solve_decision. Defined.

Definition strategy_of_call (c : call) : option strategy :=
  match c with
  | rcBuildLayerRegions => Some Layer
  | rcBuildRegionsMonotone => Some Monotone
  | rcBuildDistanceField | rcBuildRegions => Some Watershed
  | _ => None
  end.

(** The strategies a trace ran, one entry per call, in order. *)
Definition strategies_run (t : list event) : list strategy :=
  omap (fun e => match e with Call c _ => strategy_of_call c | _ => None end) t.

Section Bridge.
Context {F : Type} `{CFloat F} `{LibConstants}.

(** ** bindingRunBulk *)

(** One execution's worth of answers from the allocator and from Recast:
    whether each allocation and each fallible call succeeds, and the meshes
    [rcBuildPolyMesh] and [rcBuildPolyMeshDetail] build. *)
Record bake_env := {
  alloc_ok : resource -> bool;
  call_ok : call -> bool;
  built_poly_mesh : rcPolyMesh.t F;
  built_detail_mesh : rcPolyMeshDetail.t F
}.

(** The labels [exit1] ... [exit5]: each releases its own pointer when it is
    not null and falls through to the next one. *)
Definition exit1 (hf : bool) (t : list event) : list event :=
  if hf then t ++ [Free Res_Heightfield] else t.
Definition exit2 (chf hf : bool) (t : list event) : list event :=
  exit1 hf (if chf then t ++ [Free Res_CompactHeightfield] else t).
Definition exit3 (cset chf hf : bool) (t : list event) : list event :=
  exit2 chf hf (if cset then t ++ [Free Res_ContourSet] else t).
Definition exit4 (poly_mesh cset chf hf : bool) (t : list event) : list event :=
  exit3 cset chf hf (if poly_mesh then t ++ [Free Res_PolyMesh] else t).
Definition exit5 (detail_mesh poly_mesh cset chf hf : bool) (t : list event) : list event :=
  exit4 poly_mesh cset chf hf (if detail_mesh then t ++ [Free Res_PolyMeshDetail] else t).

(** Step 3, the three optional filters: [if (flags & FILTER_...)]. *)
Definition filter_walkable_surfaces (flags : Z) (t : list event) : list event :=
  let t := if negb (Z.land flags FILTER_LOW_HANGING_OBSTACLES =? 0)
           then t ++ [Call rcFilterLowHangingWalkableObstacles true] else t in
  let t := if negb (Z.land flags FILTER_LEDGE_SPANS =? 0)
           then t ++ [Call rcFilterLedgeSpans true] else t in
  let t := if negb (Z.land flags FILTER_WALKABLE_LOW_HEIGHT_SPANS =? 0)
           then t ++ [Call rcFilterWalkableLowHeightSpans true] else t in
  t.

(** The [if / else if / else if] chain on [flags & PARTITION_MASK].
    [inl code]: the step failed and jumps to [exit2] with that status;
    [inr tt]: the pipeline goes on. *)
Definition partition_regions (e : bake_env) (flags : Z) (t : list event)
  : (BCodeStatus + unit) * list event :=
  let partition := Z.land flags PARTITION_MASK in
  if partition =? PARTITION_LAYER then
    let t := t ++ [Call rcBuildLayerRegions (call_ok e rcBuildLayerRegions)] in
    if negb (call_ok e rcBuildLayerRegions)
    then (inl BCODE_ERR_BUILD_LAYER_REGIONS, t) else (inr tt, t)
  else if partition =? PARTITION_MONOTONE then
    let t := t ++ [Call rcBuildRegionsMonotone (call_ok e rcBuildRegionsMonotone)] in
    if negb (call_ok e rcBuildRegionsMonotone)
    then (inl BCODE_ERR_BUILD_REGIONS_MONOTONE, t) else (inr tt, t)
  else if partition =? PARTITION_WATERSHED then
    let t := t ++ [Call rcBuildDistanceField (call_ok e rcBuildDistanceField)] in
    if negb (call_ok e rcBuildDistanceField)
    then (inl BCODE_ERR_BUILD_DISTANCE_FIELD, t)
    else
      let t := t ++ [Call rcBuildRegions (call_ok e rcBuildRegions)] in
      if negb (call_ok e rcBuildRegions)
      then (inl BCODE_ERR_BUILD_REGIONS, t) else (inr tt, t)
  else (inr tt, t).

(** The pipeline.  The result is what the function returns ([Null] for
    [NULL], [Ret r] for a pointer to the envelope [r], [Fault] when the
    unchecked [calloc] of the envelope fails and [result->code] is written
    through a null pointer) together with the trace of the execution.  The
    boolean locals [hf], [chf], [cset], [poly_mesh], [detail_mesh] say
    whether the pointer of that name is not null. *)
Definition bindingRunBulk (e : bake_env) (cfg : rcConfig.t F) (flags : Z)
    (verts : list F) (nverts : Z) (tris : list Z) (ntris : Z)
  : outcome (BindingBulkResult.t F) * list event :=
  let hf := false in
  let chf := false in
  let cset := false in
  let poly_mesh := false in
  let detail_mesh := false in
  let t := [Alloc Res_Heightfield (alloc_ok e Res_Heightfield)] in
  if negb (alloc_ok e Res_Heightfield) then (Null, t) else
  let hf := true in
  let t := t ++ [Alloc Res_result (alloc_ok e Res_result)] in
  if negb (alloc_ok e Res_result) then (Fault, t) else
  let result :=
    BindingBulkResult.mk BCODE_ERR_UNKNOWN (rcConfig.cs cfg) (rcConfig.ch cfg)
      None None (rcConfig.maxVertsPerPoly cfg) in
  let t := t ++ [Call rcCreateHeightfield (call_ok e rcCreateHeightfield)] in
  if negb (call_ok e rcCreateHeightfield) then (Ret result, exit1 hf t) else
  let t := t ++ [Alloc Res_tri_areas (alloc_ok e Res_tri_areas)] in
  if negb (alloc_ok e Res_tri_areas) then
    (Ret (BindingBulkResult.with_code result BCODE_ERR_MEMORY), exit1 hf t) else
  let t := t ++ [Call rcMarkWalkableTriangles true] in
  let t := t ++ [Call rcRasterizeTriangles (call_ok e rcRasterizeTriangles)] in
  if negb (call_ok e rcRasterizeTriangles) then
    (Ret (BindingBulkResult.with_code result BCODE_ERR_RASTERIZE), exit1 hf t) else
  let t := filter_walkable_surfaces flags t in
  let t := t ++ [Alloc Res_CompactHeightfield (alloc_ok e Res_CompactHeightfield)] in
  if negb (alloc_ok e Res_CompactHeightfield) then
    (Ret (BindingBulkResult.with_code result BCODE_ERR_MEMORY), exit1 hf t) else
  let chf := true in
  let t := t ++ [Call rcBuildCompactHeightfield (call_ok e rcBuildCompactHeightfield)] in
  if negb (call_ok e rcBuildCompactHeightfield) then
    (Ret (BindingBulkResult.with_code result BCODE_ERR_BUILD_COMPACT_HEIGHTFIELD),
     exit2 chf hf t) else
  let t := if hf then t ++ [Free Res_Heightfield] else t in
  let hf := false in
  let t := t ++ [Call rcErodeWalkableArea true] in
  match partition_regions e flags t with
  | (inl code, t) => (Ret (BindingBulkResult.with_code result code), exit2 chf hf t)
  | (inr _, t) =>
  let t := t ++ [Alloc Res_ContourSet (alloc_ok e Res_ContourSet)] in
  if negb (alloc_ok e Res_ContourSet) then
    (Ret (BindingBulkResult.with_code result BCODE_ERR_ALLOC_CONTOUR), exit2 chf hf t) else
  let cset := true in
  let t := t ++ [Call rcBuildContours (call_ok e rcBuildContours)] in
  if negb (call_ok e rcBuildContours) then
    (Ret (BindingBulkResult.with_code result BCODE_ERR_BUILD_CONTOUR),
     exit3 cset chf hf t) else
  let t := t ++ [Alloc Res_PolyMesh (alloc_ok e Res_PolyMesh)] in
  if negb (alloc_ok e Res_PolyMesh) then
    (Ret (BindingBulkResult.with_code result BCODE_ERR_ALLOC_POLYMESH),
     exit3 cset chf hf t) else
  let poly_mesh := true in
  let t := t ++ [Call rcBuildPolyMesh (call_ok e rcBuildPolyMesh)] in
  if negb (call_ok e rcBuildPolyMesh) then
    (Ret (BindingBulkResult.with_code result BCODE_ERR_BUILD_POLY_MESH),
     exit4 poly_mesh cset chf hf t) else
  let t := t ++ [Alloc Res_PolyMeshDetail (alloc_ok e Res_PolyMeshDetail)] in
  if negb (alloc_ok e Res_PolyMeshDetail) then
    (Ret (BindingBulkResult.with_code result BCODE_ERR_ALLOC_DETAIL_POLY_MESH),
     exit4 poly_mesh cset chf hf t) else
  let detail_mesh := true in
  let t := t ++ [Call rcBuildPolyMeshDetail (call_ok e rcBuildPolyMeshDetail)] in
  if negb (call_ok e rcBuildPolyMeshDetail) then
    (Ret (BindingBulkResult.with_code result BCODE_ERR_BUILD_DETAIL_POLY_MESH),
     exit5 detail_mesh poly_mesh cset chf hf t) else
  let t := t ++ [Free Res_CompactHeightfield] in
  let chf := false in
  let t := t ++ [Free Res_ContourSet] in
  let cset := false in
  let result := BindingBulkResult.with_code result BCODE_OK in
  let result := BindingBulkResult.with_poly_mesh result (Some (built_poly_mesh e)) in
  let result :=
    BindingBulkResult.with_poly_mesh_detail result (Some (built_detail_mesh e)) in
  let t := if rcPolyMesh.nverts (built_poly_mesh e) =? 0 then t ++ [Printf] else t in
  (Ret result, t)
  end.

(** ** Arrays

    [load a i] is [a[i]] and [store a i v] is [a[i] = v]; an index outside
    the array is undefined behaviour, [None] here.  [calloc_array n z] is
    the zero-filled array [calloc (n, ...)] returns when it succeeds. *)
Definition load {A : Type} (a : list A) (i : Z) : option A :=
  if 0 <=? i then a !! Z.to_nat i else None.
Definition store {A : Type} (a : list A) (i : Z) (v : A) : option (list A) :=
  if (0 <=? i) && (i <? Z.of_nat (length a))
  then Some (<[Z.to_nat i := v]> a) else None.
Definition calloc_array {A : Type} (n : Z) (zero : A) : list A :=
  replicate (Z.to_nat n) zero.

(** ** bindingGenerateDetour *)

(** The fields of [dtNavMeshCreateParams] the bridge sets; [memset] zeroes
    the others. *)
Record dtNavMeshCreateParams := {
  dt_verts : list Z;
  dt_vertCount : Z;
  dt_polys : list Z;
  dt_polyAreas : list Z;
  dt_polyFlags : list Z;
  dt_polyCount : Z;
  dt_nvp : Z;
  dt_detailMeshes : list Z;
  dt_detailVerts : list F;
  dt_detailVertsCount : Z;
  dt_detailTris : list Z;
  dt_detailTriCount : Z;
  dt_walkableHeight : F;
  dt_walkableRadius : F;
  dt_walkableClimb : F;
  dt_bmin : F * F * F;
  dt_bmax : F * F * F;
  dt_cs : F;
  dt_ch : F;
  dt_buildBvTree : bool
}.

(** What Detour answers in one execution: the buffer and size written by
    the first call of [dtCreateNavMeshData] ([None] when it returns false),
    those of the second call the bridge makes after a failure, and whether
    [dtAllocNavMesh] succeeds. *)
Record detour_env := {
  dtCreateNavMeshData_first : option (list Z * Z);
  dtCreateNavMeshData_second : option (list Z * Z);
  dtAllocNavMesh_ok : bool
}.

Inductive detour_event :=
| DtCreateNavMeshData (params : dtNavMeshCreateParams) (ret : bool)
| DtAllocNavMesh (ok : bool)
| DtFree (navData : list Z).

(** The state [bindingGenerateDetour] leaves behind: the status it returns,
    the envelope [data] points to (its polygon mesh is written in place),
    what was stored through [result] and [result_size] ([None]: the cell was
    not written), and the calls into Detour. *)
Record detour_final := {
  status : BDetourStatus;
  data_after : BindingBulkResult.t F;
  result_written : option (list Z);
  result_size_written : option Z;
  detour_trace : list detour_event
}.

(** [for (int i = 0; i < npolys; ++i) flags[i] = 1], with [n] iterations
    left. *)
Fixpoint set_poly_flags (n : nat) (i : Z) (flags : list Z) : option (list Z) :=
  match n with
  | O => Some flags
  | S n' =>
      match store flags i 1 with
      | None => None
      | Some flags' => set_poly_flags n' (i + 1) flags'
      end
  end.

Definition make_params (data : BindingBulkResult.t F) (poly_mesh : rcPolyMesh.t F)
    (poly_mesh_detail : rcPolyMeshDetail.t F)
    (agentHeight agentRadius agentMaxClimb : F) : dtNavMeshCreateParams :=
  {| dt_verts := rcPolyMesh.verts poly_mesh;
     dt_vertCount := rcPolyMesh.nverts poly_mesh;
     dt_polys := rcPolyMesh.polys poly_mesh;
     dt_polyAreas := rcPolyMesh.areas poly_mesh;
     dt_polyFlags := rcPolyMesh.flags poly_mesh;
     dt_polyCount := rcPolyMesh.npolys poly_mesh;
     dt_nvp := rcPolyMesh.nvp poly_mesh;
     dt_detailMeshes := rcPolyMeshDetail.meshes poly_mesh_detail;
     dt_detailVerts := rcPolyMeshDetail.verts poly_mesh_detail;
     dt_detailVertsCount := rcPolyMeshDetail.nverts poly_mesh_detail;
     dt_detailTris := rcPolyMeshDetail.tris poly_mesh_detail;
     dt_detailTriCount := rcPolyMeshDetail.ntris poly_mesh_detail;
     dt_walkableHeight := agentHeight;
     dt_walkableRadius := agentRadius;
     dt_walkableClimb := agentMaxClimb;
     dt_bmin := rcPolyMesh.bmin poly_mesh;
     dt_bmax := rcPolyMesh.bmax poly_mesh;
     dt_cs := BindingBulkResult.cs data;
     dt_ch := BindingBulkResult.ch data;
     dt_buildBvTree := true |}.

(** [Fault]: [data->poly_mesh] or [data->poly_mesh_detail] is null, or the
    [flags] array is shorter than [npolys]. *)
Definition bindingGenerateDetour (e : detour_env) (data : BindingBulkResult.t F)
    (agentHeight agentRadius agentMaxClimb : F) : outcome detour_final :=
  if DT_VERTS_PER_POLYGON <? BindingBulkResult.max_verts_per_poly data then
    Ret {| status := BD_ERR_VERTICES; data_after := data;
           result_written := None; result_size_written := None;
           detour_trace := [] |}
  else
  match BindingBulkResult.poly_mesh data with
  | None => Fault
  | Some poly_mesh =>
  match set_poly_flags (Z.to_nat (rcPolyMesh.npolys poly_mesh)) 0
          (rcPolyMesh.flags poly_mesh) with
  | None => Fault
  | Some flags =>
  let poly_mesh := rcPolyMesh.with_flags poly_mesh flags in
  let data := BindingBulkResult.with_poly_mesh data (Some poly_mesh) in
  match BindingBulkResult.poly_mesh_detail data with
  | None => Fault
  | Some poly_mesh_detail =>
  let params :=
    make_params data poly_mesh poly_mesh_detail agentHeight agentRadius agentMaxClimb in
  match dtCreateNavMeshData_first e with
  | None =>
      Ret {| status := BD_ERR_BUILD_NAVMESH; data_after := data;
             result_written := None; result_size_written := None;
             detour_trace :=
               [DtCreateNavMeshData params false;
                DtCreateNavMeshData params
                  (bool_decide (is_Some (dtCreateNavMeshData_second e)))] |}
  | Some (navData, navDataSize) =>
      let t := [DtCreateNavMeshData params true;
                DtAllocNavMesh (dtAllocNavMesh_ok e)] in
      if negb (dtAllocNavMesh_ok e) then
        Ret {| status := BD_ERR_ALLOC_NAVMESH; data_after := data;
               result_written := None; result_size_written := None;
               detour_trace := t ++ [DtFree navData] |}
      else
        Ret {| status := BD_OK; data_after := data;
               result_written := Some navData;
               result_size_written := Some navDataSize;
               detour_trace := t |}
  end
  end
  end
  end.

(** ** bindingExtractVertsAndTriangles *)

(** Whether each of the three [calloc] calls succeeds: the returned
    structure, the vertex buffer, the index buffer. *)
Record extract_env := {
  calloc_ret_ok : bool;
  calloc_verts_ok : bool;
  calloc_triangles_ok : bool
}.

(** First pass, inner loop: [for (int j = 2; j < nvp; ++j)] over the
    polygon at offset [p] of [polys], entered with [j] and [n = nvp - j]
    iterations left; [break] on the null index, else [ntris += 3]. *)
Fixpoint count_fan (polys : list Z) (p : Z) (n : nat) (j : Z) (ntris : Z)
  : option Z :=
  match n with
  | O => Some ntris
  | S n' =>
      pj ← load polys (p + j);
      if pj =? RC_MESH_NULL_IDX then Some ntris
      else count_fan polys p n' (j + 1) (ntris + 3)
  end.

(** First pass, outer loop: [for (int i = 0; i < npolys; ++i)], entered
    with [i] and [n = npolys - i] iterations left. *)
Fixpoint count_indices (polys : list Z) (nvp : Z) (n : nat) (i : Z) (ntris : Z)
  : option Z :=
  match n with
  | O => Some ntris
  | S n' =>
      ntris' ← count_fan polys (i * nvp * 2) (Z.to_nat (nvp - 2)) 2 ntris;
      count_indices polys nvp n' (i + 1) ntris'
  end.

(** Second pass: one vertex per iteration, four floats written at [k]. *)
Fixpoint transform_verts (pmesh : rcPolyMesh.t F) (n : nat) (i : Z) (k : Z)
    (verts : list F) : option (Z * list F) :=
  match n with
  | O => Some (k, verts)
  | S n' =>
      let cs := rcPolyMesh.cs pmesh in
      let ch := rcPolyMesh.ch pmesh in
      let '(orig0, orig1, orig2) := rcPolyMesh.bmin pmesh in
      let v := i * 3 in
      v0 ← load (rcPolyMesh.verts pmesh) (v + 0);
      verts ← store verts k (fadd orig0 (fmul (float_of_int v0) cs));
      v1 ← load (rcPolyMesh.verts pmesh) (v + 1);
      verts ← store verts (k + 1)
                (fadd (fadd orig1 (fmul (float_of_int (v1 + 1)) ch)) f0_1);
      v2 ← load (rcPolyMesh.verts pmesh) (v + 2);
      verts ← store verts (k + 2) (fadd orig2 (fmul (float_of_int v2) cs));
      verts ← store verts (k + 3) (float_of_int 0);
      transform_verts pmesh n' (i + 1) (k + 4) verts
  end.

(** Third pass, inner loop: the fan of the polygon at offset [p]. *)
Fixpoint emit_fan (polys : list Z) (p : Z) (n : nat) (j : Z) (k : Z)
    (trisArray : list Z) : option (Z * list Z) :=
  match n with
  | O => Some (k, trisArray)
  | S n' =>
      pj ← load polys (p + j);
      if pj =? RC_MESH_NULL_IDX then Some (k, trisArray)
      else
        p0 ← load polys (p + 0);
        trisArray ← store trisArray k p0;
        pj1 ← load polys (p + (j - 1));
        trisArray ← store trisArray (k + 1) pj1;
        trisArray ← store trisArray (k + 2) pj;
        emit_fan polys p n' (j + 1) (k + 3) trisArray
  end.

(** Third pass, outer loop. *)
Fixpoint emit_triangles (polys : list Z) (nvp : Z) (n : nat) (i : Z) (k : Z)
    (trisArray : list Z) : option (Z * list Z) :=
  match n with
  | O => Some (k, trisArray)
  | S n' =>
      '(k', trisArray') ←
        emit_fan polys (i * nvp * 2) (Z.to_nat (nvp - 2)) 2 k trisArray;
      emit_triangles polys nvp n' (i + 1) k' trisArray'
  end.

(** The three passes on a mesh; the last two return the final value of the
    write cursor [k] with the buffer. *)
Definition sizing_pass (pmesh : rcPolyMesh.t F) : option Z :=
  count_indices (rcPolyMesh.polys pmesh) (rcPolyMesh.nvp pmesh)
    (Z.to_nat (rcPolyMesh.npolys pmesh)) 0 0.
Definition vertex_pass (pmesh : rcPolyMesh.t F) (verts : list F)
  : option (Z * list F) :=
  transform_verts pmesh (Z.to_nat (rcPolyMesh.nverts pmesh)) 0 0 verts.
Definition emission_pass (pmesh : rcPolyMesh.t F) (trisArray : list Z)
  : option (Z * list Z) :=
  emit_triangles (rcPolyMesh.polys pmesh) (rcPolyMesh.nvp pmesh)
    (Z.to_nat (rcPolyMesh.npolys pmesh)) 0 0 trisArray.

(** [Null]: a buffer could not be allocated.  [Fault]: [bbr->poly_mesh] is
    null, the unchecked [calloc] of [ret] failed (both later uses of [ret]
    dereference it), or a pass left the arrays of the mesh. *)
Definition bindingExtractVertsAndTriangles (e : extract_env)
    (bbr : BindingBulkResult.t F) : outcome (BindingVertsAndTriangles.t F) :=
  match BindingBulkResult.poly_mesh bbr with
  | None => Fault
  | Some pmesh =>
  if negb (calloc_ret_ok e) then Fault else
  if negb (calloc_verts_ok e) then Null else
  let verts := calloc_array (rcPolyMesh.nverts pmesh * 4) (float_of_int 0) in
  match sizing_pass pmesh with
  | None => Fault
  | Some ntris =>
  if negb (calloc_triangles_ok e) then Null else
  let trisArray := calloc_array ntris 0 in
  match vertex_pass pmesh verts with
  | None => Fault
  | Some (_, verts) =>
  match emission_pass pmesh trisArray with
  | None => Fault
  | Some (_, trisArray) =>
      Ret (BindingVertsAndTriangles.mk (rcPolyMesh.nverts pmesh) ntris
             verts trisArray)
  end
  end
  end
  end.

(** A polygon mesh whose arrays are as long as its counts say: three
    entries of [verts] per vertex, [2 * nvp] entries of [polys] per
    polygon. *)
Definition poly_mesh_wf (pmesh : rcPolyMesh.t F) : Prop :=
  0 <= rcPolyMesh.nverts pmesh /\
  rcPolyMesh.nverts pmesh * 3 <= Z.of_nat (length (rcPolyMesh.verts pmesh)) /\
  0 <= rcPolyMesh.npolys pmesh /\
  0 <= rcPolyMesh.nvp pmesh /\
  rcPolyMesh.npolys pmesh * rcPolyMesh.nvp pmesh * 2
    <= Z.of_nat (length (rcPolyMesh.polys pmesh)).

(** *** The two conversions, as the specification words them

    The [nvp] vertex slots of polygon [i]; the slots before the null index;
    and the fan anchored at the first vertex: one triangle
    [(p0, p_(j-1), p_j)] for every valid slot [j >= 2].  [spec_triangles]
    is the index buffer of [count] polygons from polygon [first] on. *)
Definition polygon (pmesh : rcPolyMesh.t F) (i : Z) : list Z :=
  take (Z.to_nat (rcPolyMesh.nvp pmesh))
    (drop (Z.to_nat (i * rcPolyMesh.nvp pmesh * 2)) (rcPolyMesh.polys pmesh)).

Fixpoint valid_slots (p : list Z) : list Z :=
  match p with
  | [] => []
  | v :: p' => if v =? RC_MESH_NULL_IDX then [] else v :: valid_slots p'
  end.

Fixpoint spec_fan_from (p0 prev : Z) (slots : list Z) : list Z :=
  match slots with
  | [] => []
  | v :: slots' => p0 :: prev :: v :: spec_fan_from p0 v slots'
  end.

Definition spec_fan (p : list Z) : list Z :=
  match p with
  | p0 :: p1 :: rest => spec_fan_from p0 p1 (valid_slots rest)
  | _ => []
  end.

Definition spec_triangles (pmesh : rcPolyMesh.t F) (first : Z) (count : nat)
  : list Z :=
  flat_map (fun i => spec_fan (polygon pmesh i)) (seqZ first (Z.of_nat count)).

(** The number of triangles of the fans: one per valid slot from the third
    slot of each polygon on. *)
Definition spec_triangle_count (pmesh : rcPolyMesh.t F) (first : Z) (count : nat)
  : nat :=
  list_sum
    (map (fun i => length (valid_slots (drop 2 (polygon pmesh i))))
         (seqZ first (Z.of_nat count))).

(** The world position of the grid vertex [(x, y, z)], padded to four
    floats, and the vertex buffer of [count] vertices from vertex [first]
    on. *)
Definition world_vertex (pmesh : rcPolyMesh.t F) (x y z : Z) : list F :=
  let '(orig0, orig1, orig2) := rcPolyMesh.bmin pmesh in
  [fadd orig0 (fmul (float_of_int x) (rcPolyMesh.cs pmesh));
   fadd (fadd orig1 (fmul (float_of_int (y + 1)) (rcPolyMesh.ch pmesh))) f0_1;
   fadd orig2 (fmul (float_of_int z) (rcPolyMesh.cs pmesh));
   float_of_int 0].

Definition grid_coord (pmesh : rcPolyMesh.t F) (i : Z) (c : Z) : Z :=
  nth (Z.to_nat (i * 3 + c)) (rcPolyMesh.verts pmesh) 0.

Definition spec_verts (pmesh : rcPolyMesh.t F) (first : Z) (count : nat)
  : list F :=
  flat_map (fun i => world_vertex pmesh (grid_coord pmesh i 0)
                       (grid_coord pmesh i 1) (grid_coord pmesh i 2))
    (seqZ first (Z.of_nat count)).

(** ** Sample data

    A mesh of five vertices and two polygons with [nvp = 6]: a quad
    [0 1 2 3] and a triangle [0 3 4], each followed by its six neighbour
    entries; the environments of a bake where every step succeeds, where the
    first allocation fails, and where rasterization fails. *)
Definition sample_mesh : rcPolyMesh.t F :=
  rcPolyMesh.mk
    [0; 0; 0;  10; 0; 0;  10; 0; 10;  0; 0; 10;  0; 2; 20]
    (let x := RC_MESH_NULL_IDX in
     [0; 1; 2; 3; x; x;   x; x; x; 1; x; x;
      0; 3; 4; x; x; x;   0; x; x; x; x; x])
    [0; 0]
    [63; 63]
    5 2 6
    (float_of_int (-5), float_of_int 0, float_of_int (-5))
    (float_of_int 5, float_of_int 1, float_of_int 15)
    (float_of_int 1) (float_of_int 2).

Definition sample_detail : rcPolyMeshDetail.t F :=
  rcPolyMeshDetail.mk [0; 4; 0; 2; 4; 3; 2; 1] [] [0; 1; 2; 0; 0; 2; 3; 0; 0; 1; 2; 0]
    2 0 3.

Definition sample_config : rcConfig.t F :=
  rcConfig.mk (float_of_int 1) (float_of_int 2) 6.

Definition sample_result : BindingBulkResult.t F :=
  BindingBulkResult.mk BCODE_OK (float_of_int 1) (float_of_int 2)
    (Some sample_mesh) (Some sample_detail) 6.

Definition env_all_ok : bake_env :=
  {| alloc_ok := fun _ => true;
     call_ok := fun _ => true;
     built_poly_mesh := sample_mesh;
     built_detail_mesh := sample_detail |}.

Definition env_no_heightfield : bake_env :=
  {| alloc_ok := fun r => match r with Res_Heightfield => false | _ => true end;
     call_ok := fun _ => true;
     built_poly_mesh := sample_mesh;
     built_detail_mesh := sample_detail |}.

Definition env_rasterize_fails : bake_env :=
  {| alloc_ok := fun _ => true;
     call_ok := fun c => match c with rcRasterizeTriangles => false | _ => true end;
     built_poly_mesh := sample_mesh;
     built_detail_mesh := sample_detail |}.

Definition env_distance_field_fails : bake_env :=
  {| alloc_ok := fun _ => true;
     call_ok := fun c => match c with rcBuildDistanceField => false | _ => true end;
     built_poly_mesh := sample_mesh;
     built_detail_mesh := sample_detail |}.

(** An envelope that asks for seven vertices per polygon. *)
Definition sample_result_7 : BindingBulkResult.t F :=
  BindingBulkResult.mk BCODE_OK (float_of_int 1) (float_of_int 2)
    (Some sample_mesh) (Some sample_detail) 7.

(** What the extraction of [sample_mesh] returns. *)
Definition sample_extracted : BindingVertsAndTriangles.t F :=
  BindingVertsAndTriangles.mk 5 9 (spec_verts sample_mesh 0 5)
    [0; 1; 2; 0; 2; 3; 0; 3; 4].

Definition extract_all_ok : extract_env :=
  {| calloc_ret_ok := true; calloc_verts_ok := true; calloc_triangles_ok := true |}.

Definition detour_alloc_fails : detour_env :=
  {| dtCreateNavMeshData_first := Some ([68; 78; 65; 86], 4);
     dtCreateNavMeshData_second := None;
     dtAllocNavMesh_ok := false |}.

(** ** Properties of bindingRunBulk *)

(** The status and the two mesh pointers of an envelope agree. *)
Definition envelope_consistent (r : BindingBulkResult.t F) : Prop :=
  (BindingBulkResult.code r = BCODE_OK /\
   is_Some (BindingBulkResult.poly_mesh r) /\
   is_Some (BindingBulkResult.poly_mesh_detail r))
  \/
  (BindingBulkResult.code r <> BCODE_OK /\
   BindingBulkResult.poly_mesh r = None /\
   BindingBulkResult.poly_mesh_detail r = None).

(** The five stage structures of the pipeline. *)
Definition stage_resources : list resource :=
  [Res_Heightfield; Res_CompactHeightfield; Res_ContourSet;
   Res_PolyMesh; Res_PolyMeshDetail].

(** The execution got as far as the region-partitioning step, which
    directly follows the erosion. *)
Definition reaches_partition (t : list event) : Prop :=
  In (Call rcErodeWalkableArea true) t.

(** The calls step 3 adds to a trace. *)
Definition filter_calls (flags : Z) : list event :=
  filter_walkable_surfaces flags [].

(** The trace of every execution up to the erosion, once the compact
    heightfield is built. *)
Definition trace_to_erosion (flags : Z) : list event :=
  [Alloc Res_Heightfield true; Alloc Res_result true;
   Call rcCreateHeightfield true; Alloc Res_tri_areas true;
   Call rcMarkWalkableTriangles true; Call rcRasterizeTriangles true]
  ++ filter_calls flags
  ++ [Alloc Res_CompactHeightfield true;
      Call rcBuildCompactHeightfield true;
      Free Res_Heightfield;
      Call rcErodeWalkableArea true].

(** Boolean forms of [held] and [released]. *)
Definition heldb (r : resource) (t : list event) : bool :=
  (allocs r t =? 1)%nat && (frees r t =? 0)%nat.
Definition releasedb (r : resource) (t : list event) : bool :=
  (allocs r t =? frees r t)%nat && (frees r t <=? 1)%nat.

(** ** Further definitions: failures, filters and the release functions *)

(** A failed allocation or a library call that returned false; a release. *)
Definition is_failure (ev : event) : bool :=
  match ev with
  | Alloc _ false | Call _ false => true
  | _ => false
  end.
Definition is_free (ev : event) : bool :=
  match ev with
  | Free _ => true
  | _ => false
  end.

(** Once an event of [t] is a failure, only releases follow it. *)
Fixpoint only_frees_after_failure (t : list event) : bool :=
  match t with
  | [] => true
  | ev :: t' =>
      if is_failure ev then forallb is_free t' else only_frees_after_failure t'
  end.

(** The status [bindingRunBulk] stores in the envelope when a step fails:
    the assignments [result->code = ...] of the source, by failed step (the
    status set at the start, [BCODE_ERR_UNKNOWN], is what a failed
    [rcCreateHeightfield] leaves).  The two allocations made before the
    envelope is set up have none. *)
Definition status_of_failure (ev : event) : option BCodeStatus :=
  match ev with
  | Call rcCreateHeightfield false => Some BCODE_ERR_UNKNOWN
  | Alloc Res_tri_areas false => Some BCODE_ERR_MEMORY
  | Call rcRasterizeTriangles false => Some BCODE_ERR_RASTERIZE
  | Alloc Res_CompactHeightfield false => Some BCODE_ERR_MEMORY
  | Call rcBuildCompactHeightfield false => Some BCODE_ERR_BUILD_COMPACT_HEIGHTFIELD
  | Call rcBuildLayerRegions false => Some BCODE_ERR_BUILD_LAYER_REGIONS
  | Call rcBuildRegionsMonotone false => Some BCODE_ERR_BUILD_REGIONS_MONOTONE
  | Call rcBuildDistanceField false => Some BCODE_ERR_BUILD_DISTANCE_FIELD
  | Call rcBuildRegions false => Some BCODE_ERR_BUILD_REGIONS
  | Alloc Res_ContourSet false => Some BCODE_ERR_ALLOC_CONTOUR
  | Call rcBuildContours false => Some BCODE_ERR_BUILD_CONTOUR
  | Alloc Res_PolyMesh false => Some BCODE_ERR_ALLOC_POLYMESH
  | Call rcBuildPolyMesh false => Some BCODE_ERR_BUILD_POLY_MESH
  | Alloc Res_PolyMeshDetail false => Some BCODE_ERR_ALLOC_DETAIL_POLY_MESH
  | Call rcBuildPolyMeshDetail false => Some BCODE_ERR_BUILD_DETAIL_POLY_MESH
  | _ => None
  end.

(** The calls of the three filters found in a trace. *)
Definition is_filter_event (ev : event) : bool :=
  match ev with
  | Call rcFilterLowHangingWalkableObstacles _
  | Call rcFilterLedgeSpans _
  | Call rcFilterWalkableLowHeightSpans _ => true
  | _ => false
  end.
Definition filter_events (t : list event) : list event :=
  List.filter is_filter_event t.

(** [bindingRelease]: the releases it performs on the envelope [data]
    points to; [Fault] when [data] is null ([data->poly_mesh] is read
    first). *)
Definition bindingRelease (data : option (BindingBulkResult.t F))
  : outcome (list event) :=
  match data with
  | None => Fault
  | Some data =>
      let t := [] in
      let t := match BindingBulkResult.poly_mesh data with
               | Some _ => t ++ [Free Res_PolyMesh]
               | None => t
               end in
      let t := match BindingBulkResult.poly_mesh_detail data with
               | Some _ => t ++ [Free Res_PolyMeshDetail]
               | None => t
               end in
      Ret (t ++ [Free Res_result])
  end.

(** The calls of [dtCreateNavMeshData] in a trace, with their parameters
    and what they returned. *)
Definition serializer_calls (t : list detour_event)
  : list (dtNavMeshCreateParams * bool) :=
  omap (fun ev => match ev with
                  | DtCreateNavMeshData params ret => Some (params, ret)
                  | _ => None
                  end) t.

(** The buffers a trace released with [dtFree]. *)
Definition freed_buffers (t : list detour_event) : list (list Z) :=
  omap (fun ev => match ev with DtFree navData => Some navData | _ => None end) t.

(** *** The heap of bindingExtractVertsAndTriangles

    The three blocks the function allocates, the pointers of the structure
    under construction ([true]: not null), and the function once more with
    the allocations and releases it performs. *)
Inductive extract_block : Set := Mem_ret | Mem_verts | Mem_triangles.

Inductive heap_event : Set :=
| Calloc (b : extract_block) (ok : bool)
| FreeMem (b : extract_block).

Record vt_pointers := {
  verts_set : bool;
  triangles_set : bool
}.

Definition extract_block_eqb (b1 b2 : extract_block) : bool :=
  match b1, b2 with
  | Mem_ret, Mem_ret | Mem_verts, Mem_verts | Mem_triangles, Mem_triangles => true
  | _, _ => false
  end.

Definition mem_allocs (b : extract_block) (t : list heap_event) : nat :=
  length (List.filter
            (fun ev => match ev with
                       | Calloc b' true => extract_block_eqb b b'
                       | _ => false
                       end) t).
Definition mem_frees (b : extract_block) (t : list heap_event) : nat :=
  length (List.filter
            (fun ev => match ev with
                       | FreeMem b' => extract_block_eqb b b'
                       | _ => false
                       end) t).

(** [freeVertsAndTriangles]: each buffer is released when its pointer is
    set, then the structure; [Fault] when [data] is null. *)
Definition freeVertsAndTriangles (data : option vt_pointers)
  : outcome (list heap_event) :=
  match data with
  | None => Fault
  | Some data =>
      let t := [] in
      let t := if verts_set data then t ++ [FreeMem Mem_verts] else t in
      let t := if triangles_set data then t ++ [FreeMem Mem_triangles] else t in
      Ret (t ++ [FreeMem Mem_ret])
  end.

(** [bindingExtractVertsAndTriangles] with its heap: what it returns, the
    pointers of the structure it returns ([None]: no structure), and the
    allocations and releases it performed.  [ret] is the pointer [calloc]
    returned for the structure: [None] when it failed. *)
Record extract_heap := {
  eh_outcome : outcome (BindingVertsAndTriangles.t F);
  eh_ret : option vt_pointers;
  eh_trace : list heap_event
}.

Definition bindingExtractVertsAndTriangles_heap (e : extract_env)
    (bbr : BindingBulkResult.t F) : extract_heap :=
  let t := [Calloc Mem_ret (calloc_ret_ok e)] in
  let ret := if calloc_ret_ok e
             then Some {| verts_set := false; triangles_set := false |}
             else None in
  match BindingBulkResult.poly_mesh bbr with
  | None => {| eh_outcome := Fault; eh_ret := ret; eh_trace := t |}
  | Some pmesh =>
  let t := t ++ [Calloc Mem_verts (calloc_verts_ok e)] in
  if negb (calloc_verts_ok e) then
    match freeVertsAndTriangles ret with
    | Ret released =>
        {| eh_outcome := Null; eh_ret := None; eh_trace := t ++ released |}
    | _ => {| eh_outcome := Fault; eh_ret := ret; eh_trace := t |}
    end
  else
  match ret with
  | None => {| eh_outcome := Fault; eh_ret := ret; eh_trace := t |}
  | Some _ =>
  let ret := Some {| verts_set := true; triangles_set := false |} in
  let verts := calloc_array (rcPolyMesh.nverts pmesh * 4) (float_of_int 0) in
  match sizing_pass pmesh with
  | None => {| eh_outcome := Fault; eh_ret := ret; eh_trace := t |}
  | Some ntris =>
  let t := t ++ [Calloc Mem_triangles (calloc_triangles_ok e)] in
  if negb (calloc_triangles_ok e) then
    match freeVertsAndTriangles ret with
    | Ret released =>
        {| eh_outcome := Null; eh_ret := None; eh_trace := t ++ released |}
    | _ => {| eh_outcome := Fault; eh_ret := ret; eh_trace := t |}
    end
  else
  let trisArray := calloc_array ntris 0 in
  let ret := Some {| verts_set := true; triangles_set := true |} in
  match vertex_pass pmesh verts with
  | None => {| eh_outcome := Fault; eh_ret := ret; eh_trace := t |}
  | Some (_, verts) =>
  match emission_pass pmesh trisArray with
  | None => {| eh_outcome := Fault; eh_ret := ret; eh_trace := t |}
  | Some (_, trisArray) =>
      {| eh_outcome :=
           Ret (BindingVertsAndTriangles.mk (rcPolyMesh.nverts pmesh) ntris
                  verts trisArray);
         eh_ret := ret;
         eh_trace := t |}
  end
  end
  end
  end
  end.

(** Every polygon has at least three valid slots, and its valid slots
    are indices of vertices of the mesh: what Recast builds. *)
Definition polygons_in_range (pmesh : rcPolyMesh.t F) : Prop :=
  forall i, 0 <= i < rcPolyMesh.npolys pmesh ->
    (3 <= length (valid_slots (polygon pmesh i)))%nat /\
    Forall (fun v => 0 <= v < rcPolyMesh.nverts pmesh)
      (valid_slots (polygon pmesh i)).

(** More sample data: a detour environment where the first serialization
    fails and the second succeeds, and one where everything succeeds. *)
Definition detour_retry : detour_env :=
  {| dtCreateNavMeshData_first := None;
     dtCreateNavMeshData_second := Some ([68; 78; 65; 86], 4);
     dtAllocNavMesh_ok := true |}.

Definition detour_all_ok : detour_env :=
  {| dtCreateNavMeshData_first := Some ([68; 78; 65; 86], 4);
     dtCreateNavMeshData_second := None;
     dtAllocNavMesh_ok := true |}.

(** A bake that builds a mesh without vertices or polygons. *)
Definition empty_mesh : rcPolyMesh.t F :=
  rcPolyMesh.mk [] [] [] [] 0 0 6
    (float_of_int 0, float_of_int 0, float_of_int 0)
    (float_of_int 0, float_of_int 0, float_of_int 0)
    (float_of_int 1) (float_of_int 2).

Definition env_empty_mesh : bake_env :=
  {| alloc_ok := fun _ => true;
     call_ok := fun _ => true;
     built_poly_mesh := empty_mesh;
     built_detail_mesh := rcPolyMeshDetail.mk [] [] [] 0 0 0 |}.

(** The envelopes of a bake where rasterization failed, and of a
    successful one. *)
Definition failed_result : BindingBulkResult.t F :=
  BindingBulkResult.mk BCODE_ERR_RASTERIZE (float_of_int 1) (float_of_int 2)
    None None 6.

(** What [bindingGenerateDetour] leaves on [sample_result], for an agent
    of height 2, radius 1 and climb 1, when everything succeeds and when
    the first serialization fails. *)
Definition sample_flagged : BindingBulkResult.t F :=
  BindingBulkResult.with_poly_mesh sample_result
    (Some (rcPolyMesh.with_flags sample_mesh [1; 1])).

Definition sample_params : dtNavMeshCreateParams :=
  make_params sample_flagged (rcPolyMesh.with_flags sample_mesh [1; 1])
    sample_detail (float_of_int 2) (float_of_int 1) (float_of_int 1).

Definition detour_ok_final : detour_final :=
  {| status := BD_OK;
     data_after := sample_flagged;
     result_written := Some [68; 78; 65; 86];
     result_size_written := Some 4;
     detour_trace := [DtCreateNavMeshData sample_params true; DtAllocNavMesh true] |}.

Definition detour_retry_final : detour_final :=
  {| status := BD_ERR_BUILD_NAVMESH;
     data_after := sample_flagged;
     result_written := None;
     result_size_written := None;
     detour_trace := [DtCreateNavMeshData sample_params false;
                      DtCreateNavMeshData sample_params true] |}.

Definition extract_no_triangles : extract_env :=
  {| calloc_ret_ok := true; calloc_verts_ok := true; calloc_triangles_ok := false |}.


(** *** Tactics *)

(** Follow the pipeline: case on the answer of the oracle that decides the
    outermost conditional, until none is left. *)
Ltac oracle_step :=
  match goal with
  | |- context [if ?b then _ else _] =>
      lazymatch b with
      | negb (alloc_ok ?e ?r) => destruct (alloc_ok e r) eqn:?
      | negb (call_ok ?e ?c) => destruct (call_ok e c) eqn:?
      | Z.eqb (Z.land ?a 24) ?k => destruct (Z.eqb_spec (Z.land a 24) k)
      | Z.eqb (rcPolyMesh.nverts ?m) 0 =>
          destruct (Z.eqb (rcPolyMesh.nverts m) 0) eqn:?
      end
  end; cbn [negb].

Ltac run_pipeline :=
  unfold bindingRunBulk, partition_regions,
    exit5, exit4, exit3, exit2, exit1,
    PARTITION_MASK, PARTITION_LAYER, PARTITION_MONOTONE, PARTITION_WATERSHED;
  cbv zeta;
  repeat oracle_step;
  cbn [fst snd].

(** At the end of a path, case on the three filter bits of [flags]: the
    trace is then a list of known events. *)
Ltac split_filters flags :=
  unfold filter_walkable_surfaces,
    FILTER_LOW_HANGING_OBSTACLES, FILTER_LEDGE_SPANS,
    FILTER_WALKABLE_LOW_HEIGHT_SPANS;
  cbv zeta;
  try case (Z.eqb (Z.land flags 1) 0);
  try case (Z.eqb (Z.land flags 2) 0);
  try case (Z.eqb (Z.land flags 4) 0);
  cbn [negb].

(** Evaluate the counts of events of a known trace. *)
Ltac eval_occurs :=
  repeat match goal with
  | |- context [occurs ?ev ?t] =>
      let n := eval vm_compute in (occurs ev t) in
      change (occurs ev t) with n
  end.

(** *** Traces *)

Lemma heldb_spec r t : heldb r t = true <-> held r t.
Proof.
  unfold heldb, held. rewrite andb_true_iff, !Nat.eqb_eq. reflexivity.
Qed.

Lemma releasedb_spec r t : releasedb r t = true <-> released r t.
Proof.
  unfold releasedb, released.
  rewrite andb_true_iff, Nat.eqb_eq, Nat.leb_le. reflexivity.
Qed.

Lemma In_occurs ev t : In ev t <-> occurs ev t <> 0%nat.
Proof.
  unfold occurs. rewrite (count_occ_In event_eq_dec). lia.
Qed.

Lemma bindingRunBulk_null e cfg flags verts nverts tris ntris :
  alloc_ok e Res_Heightfield = false ->
  bindingRunBulk e cfg flags verts nverts tris ntris
  = (Null, [Alloc Res_Heightfield false]).
Proof. intros E. unfold bindingRunBulk. rewrite E. reflexivity. Qed.

(** Every stage structure is released exactly once, or was never allocated,
    when the pipeline returns an error status. *)
Lemma stage_resources_released e cfg flags verts nverts tris ntris r :
  fst (bindingRunBulk e cfg flags verts nverts tris ntris) = Ret r ->
  BindingBulkResult.code r <> BCODE_OK ->
  Forall (fun s => released s (snd (bindingRunBulk e cfg flags verts nverts tris ntris)))
    stage_resources.
Proof.
  intros Hr Hc. apply List.Forall_forall. intros s Hs.
  apply releasedb_spec. revert s Hs. apply List.forallb_forall.
  revert Hr.
  run_pipeline; intros [= <-]; try (exfalso; apply Hc; reflexivity);
    split_filters flags; vm_compute; reflexivity.
Qed.

(** The per-triangle area array is never released. *)
Lemma tri_areas_never_freed e cfg flags verts nverts tris ntris :
  frees Res_tri_areas (snd (bindingRunBulk e cfg flags verts nverts tris ntris))
  = 0%nat.
Proof. run_pipeline; split_filters flags; vm_compute; reflexivity. Qed.

(** C1, as amended: when the heightfield and the envelope are allocated,
    [bindingRunBulk] returns an envelope in which exactly one of these
    holds: the status is [BCODE_OK] and both mesh pointers are set, or the
    status is an error and both mesh pointers are null. *)
Theorem bindingRunBulk_envelope e cfg flags verts nverts tris ntris :
  alloc_ok e Res_Heightfield = true ->
  alloc_ok e Res_result = true ->
  exists r,
    fst (bindingRunBulk e cfg flags verts nverts tris ntris) = Ret r /\
    envelope_consistent r /\
    ~ (BindingBulkResult.code r = BCODE_OK /\
       BindingBulkResult.poly_mesh r = None).
Proof.
  intros Ehf Eres. run_pipeline; try congruence;
    (eexists; split; [reflexivity|]; split;
     [ cbn; first [ left; repeat split; eexists; reflexivity
                  | right; repeat split; discriminate ]
     | cbn; intros [? ?]; congruence ]).
Qed.

(** C2, on a failing input: when [rcRasterizeTriangles] fails the pipeline
    returns [BCODE_ERR_RASTERIZE] while the per-triangle area array, which
    it allocated, is still held; the array is released on no path
    ([tri_areas_never_freed]), whereas the five stage structures are
    ([stage_resources_released]). *)
Theorem tri_areas_leaked_on_rasterize_failure cfg flags verts nverts tris ntris :
  exists r,
    fst (bindingRunBulk env_rasterize_fails cfg flags verts nverts tris ntris)
    = Ret r /\
    BindingBulkResult.code r = BCODE_ERR_RASTERIZE /\
    held Res_tri_areas
      (snd (bindingRunBulk env_rasterize_fails cfg flags verts nverts tris ntris)) /\
    Forall (fun s =>
      released s
        (snd (bindingRunBulk env_rasterize_fails cfg flags verts nverts tris ntris)))
      stage_resources.
Proof.
  eexists. split; [reflexivity|]. split; [reflexivity|]. split.
  - apply heldb_spec. vm_compute. reflexivity.
  - apply stage_resources_released with (r := BindingBulkResult.mk
      BCODE_ERR_RASTERIZE (rcConfig.cs cfg) (rcConfig.ch cfg) None None
      (rcConfig.maxVertsPerPoly cfg)); [reflexivity | discriminate].
Qed.

Lemma snoc3 {A} (t : list A) a b c :
  ((t ++ [a]) ++ [b]) ++ [c] = t ++ [a; b; c] ++ [].
Proof. rewrite <- !app_assoc. reflexivity. Qed.

Lemma snoc3_app {A} (t : list A) a b c l :
  (((t ++ [a]) ++ [b]) ++ [c]) ++ l = t ++ [a; b; c] ++ l.
Proof. rewrite <- !app_assoc. reflexivity. Qed.

(** C3, as amended: in an execution that reaches the partitioning step,
    when the partition field [flags & PARTITION_MASK] is one of the three
    patterns of the header, the calls of that step are those of the
    selected strategy alone: [rcBuildLayerRegions] for [PARTITION_LAYER]
    (0), [rcBuildRegionsMonotone] for [PARTITION_MONOTONE], and for
    [PARTITION_WATERSHED] [rcBuildDistanceField] followed, when it
    succeeds, by [rcBuildRegions]; a failed distance field, and nothing
    else, gives the status [BCODE_ERR_BUILD_DISTANCE_FIELD]. *)
Theorem partition_strategy_selected e cfg flags verts nverts tris ntris :
  reaches_partition (snd (bindingRunBulk e cfg flags verts nverts tris ntris)) ->
  (Z.land flags PARTITION_MASK = PARTITION_LAYER ->
   partition_calls (snd (bindingRunBulk e cfg flags verts nverts tris ntris))
   = [Call rcBuildLayerRegions (call_ok e rcBuildLayerRegions)]) /\
  (Z.land flags PARTITION_MASK = PARTITION_MONOTONE ->
   partition_calls (snd (bindingRunBulk e cfg flags verts nverts tris ntris))
   = [Call rcBuildRegionsMonotone (call_ok e rcBuildRegionsMonotone)]) /\
  (Z.land flags PARTITION_MASK = PARTITION_WATERSHED ->
   partition_calls (snd (bindingRunBulk e cfg flags verts nverts tris ntris))
   = if call_ok e rcBuildDistanceField
     then [Call rcBuildDistanceField true;
           Call rcBuildRegions (call_ok e rcBuildRegions)]
     else [Call rcBuildDistanceField false]) /\
  (forall r,
   fst (bindingRunBulk e cfg flags verts nverts tris ntris) = Ret r ->
   (BindingBulkResult.code r = BCODE_ERR_BUILD_DISTANCE_FIELD <->
    In (Call rcBuildDistanceField false)
       (snd (bindingRunBulk e cfg flags verts nverts tris ntris)))).
Proof.
  unfold reaches_partition. setoid_rewrite In_occurs.
  run_pipeline; split_filters flags; eval_occurs;
    repeat match goal with
    | |- context [partition_calls ?t] =>
        let l := eval vm_compute in (partition_calls t) in
        change (partition_calls t) with l
    end;
    (intros Hreach; try congruence; clear Hreach);
    repeat split;
    try (intros; exfalso; congruence);
    try (intros; reflexivity);
    (match goal with Hr : Ret _ = Ret _ |- _ => injection Hr as <- end;
     cbn; intros; try discriminate; congruence).
Qed.

(** C8: once [rcBuildCompactHeightfield] has succeeded, the heightfield is
    released at once, before the erosion (the trace starts with
    [trace_to_erosion]); and when the status is [BCODE_OK], the compact
    heightfield and the contour set are released after the detail mesh is
    built and before the return, the heightfield is released too, the two
    meshes are held, and the envelope carries them with the cell size, the
    cell height and the maximal number of vertices per polygon of the
    configuration. *)
Theorem bindingRunBulk_staged_release e cfg flags verts nverts tris ntris :
  (In (Call rcBuildCompactHeightfield true)
      (snd (bindingRunBulk e cfg flags verts nverts tris ntris)) ->
   exists rest,
     snd (bindingRunBulk e cfg flags verts nverts tris ntris)
     = trace_to_erosion flags ++ rest) /\
  (forall r,
   fst (bindingRunBulk e cfg flags verts nverts tris ntris) = Ret r ->
   BindingBulkResult.code r = BCODE_OK ->
   (exists before,
      snd (bindingRunBulk e cfg flags verts nverts tris ntris)
      = before
        ++ [Call rcBuildPolyMeshDetail true;
            Free Res_CompactHeightfield; Free Res_ContourSet]
        ++ (if rcPolyMesh.nverts (built_poly_mesh e) =? 0 then [Printf] else [])) /\
   Forall (fun s => released s
       (snd (bindingRunBulk e cfg flags verts nverts tris ntris)))
     [Res_Heightfield; Res_CompactHeightfield; Res_ContourSet] /\
   Forall (fun s => held s
       (snd (bindingRunBulk e cfg flags verts nverts tris ntris)))
     [Res_PolyMesh; Res_PolyMeshDetail] /\
   r = BindingBulkResult.mk BCODE_OK (rcConfig.cs cfg) (rcConfig.ch cfg)
         (Some (built_poly_mesh e)) (Some (built_detail_mesh e))
         (rcConfig.maxVertsPerPoly cfg)).
Proof.
  rewrite In_occurs. unfold trace_to_erosion, filter_calls.
  run_pipeline; (split;
    [ split_filters flags; eval_occurs; intros Hin; try congruence; clear Hin;
      eexists; cbn [app]; reflexivity
    | intros ? [= <-];
      cbn [BindingBulkResult.code BindingBulkResult.with_code
           BindingBulkResult.with_poly_mesh BindingBulkResult.with_poly_mesh_detail];
      intros Hc;
      first
        [ discriminate Hc
        | split; [ eexists; first [ apply snoc3_app | apply snoc3 ] | ];
          split; [ apply List.Forall_forall; intros s Hs; apply releasedb_spec;
                   revert s Hs; apply List.forallb_forall;
                   split_filters flags; vm_compute; reflexivity | ];
          split; [ apply List.Forall_forall; intros s Hs; apply heldb_spec;
                   revert s Hs; apply List.forallb_forall;
                   split_filters flags; vm_compute; reflexivity | ];
          reflexivity ] ]).
Qed.

(** ** Properties of the arrays *)

Lemma load_Some {A} (a : list A) i v :
  load a i = Some v <-> 0 <= i /\ a !! Z.to_nat i = Some v.
Proof.
  unfold load. destruct (Z.leb_spec 0 i); split; intros Hl;
    try tauto; try discriminate; destruct Hl; lia.
Qed.

Lemma load_in_range {A} (a : list A) i :
  0 <= i < Z.of_nat (length a) -> exists v, load a i = Some v.
Proof.
  intros Hi. destruct (lookup_lt_is_Some_2 a (Z.to_nat i)) as [v Hv]; [lia|].
  exists v. apply load_Some. split; [lia|done].
Qed.

Lemma store_at {A} (w u : list A) x rest v :
  store (w ++ u ++ x :: rest) (Z.of_nat (length w) + Z.of_nat (length u)) v
  = Some (w ++ u ++ v :: rest).
Proof.
  unfold store.
  rewrite !length_app, length_cons.
  replace ((0 <=? _) && _) with true.
  2:{ symmetry. apply andb_true_iff. split; [apply Z.leb_le|apply Z.ltb_lt]; lia. }
  f_equal.
  replace (Z.to_nat (Z.of_nat (length w) + Z.of_nat (length u)))
    with (length w + (length u + 0))%nat by lia.
  rewrite !insert_app_r. reflexivity.
Qed.

Lemma drop_lookup_cons {A} (a : list A) n v :
  a !! n = Some v -> drop n a = v :: drop (S n) a.
Proof. intros Hv. by apply drop_S. Qed.

(** ** The sizing and emission passes *)

Lemma spec_fan_from_length p0 prev slots :
  length (spec_fan_from p0 prev slots) = (3 * length slots)%nat.
Proof.
  revert prev. induction slots as [|v slots IH]; intros prev; cbn [spec_fan_from length].
  - reflexivity.
  - rewrite IH. lia.
Qed.

(** The sizing loop of one polygon counts three entries per valid slot. *)
Lemma count_fan_spec polys p n j ntris ntris' :
  count_fan polys p n j ntris = Some ntris' ->
  ntris' = ntris
    + 3 * Z.of_nat (length (valid_slots (take n (drop (Z.to_nat (p + j)) polys)))).
Proof.
  revert j ntris. induction n as [|n IH]; intros j ntris; cbn [count_fan].
  - intros [= <-]. rewrite take_0. cbn. lia.
  - destruct (load polys (p + j)) as [pj|] eqn:Hpj; [|discriminate].
    apply load_Some in Hpj as [Hge Hpj]. cbn [mbind option_bind].
    rewrite (drop_lookup_cons _ _ _ Hpj). rewrite firstn_cons; cbn [valid_slots].
    destruct (pj =? RC_MESH_NULL_IDX).
    + intros [= <-]. cbn. lia.
    + intros Hc. apply IH in Hc.
      replace (Z.to_nat (p + (j + 1))) with (S (Z.to_nat (p + j))) in Hc by lia.
      cbn [length]. lia.
Qed.

(** The emission loop of one polygon, run where the sizing loop succeeded,
    on a buffer with the words [w] written so far and room for the fan. *)
Lemma emit_fan_spec polys p n j w rest p0 prev ntris ntris' :
  count_fan polys p n j ntris = Some ntris' ->
  load polys (p + 0) = Some p0 ->
  load polys (p + (j - 1)) = Some prev ->
  let slots := valid_slots (take n (drop (Z.to_nat (p + j)) polys)) in
  (3 * length slots <= length rest)%nat ->
  emit_fan polys p n j (Z.of_nat (length w)) (w ++ rest)
  = Some (Z.of_nat (length w) + 3 * Z.of_nat (length slots),
          w ++ spec_fan_from p0 prev slots ++ drop (3 * length slots) rest).
Proof.
  intros Hc Hp0. revert j w rest prev ntris Hc.
  induction n as [|n IH]; intros j w rest prev ntris Hc Hprev;
    cbn [count_fan emit_fan] in *.
  - rewrite take_0. cbn. intros _. do 2 f_equal. lia.
  - destruct (load polys (p + j)) as [pj|] eqn:Hpj; [|discriminate].
    pose proof Hpj as Hpj'.
    apply load_Some in Hpj' as [Hge Hpj']. cbn [mbind option_bind] in *.
    rewrite (drop_lookup_cons _ _ _ Hpj'), firstn_cons. cbn [valid_slots].
    replace (S (Z.to_nat (p + j))) with (Z.to_nat (p + (j + 1))) by lia.
    destruct (pj =? RC_MESH_NULL_IDX).
    + cbn. intros _. do 2 f_equal. lia.
    + cbn [length spec_fan_from]. intros Hroom.
      destruct rest as [|x [|y [|z rest]]]; cbn [length] in Hroom; try lia.
      assert (S0 : store (w ++ x :: y :: z :: rest) (Z.of_nat (length w)) p0
                   = Some (w ++ p0 :: y :: z :: rest)).
      { rewrite <- (Z.add_0_r (Z.of_nat (length w))).
        exact (store_at w [] x (y :: z :: rest) p0). }
      assert (S1 : store (w ++ p0 :: y :: z :: rest) (Z.of_nat (length w) + 1) prev
                   = Some (w ++ p0 :: prev :: z :: rest))
        by exact (store_at w [p0] y (z :: rest) prev).
      assert (S2 : store (w ++ p0 :: prev :: z :: rest) (Z.of_nat (length w) + 2) pj
                   = Some (w ++ p0 :: prev :: pj :: rest))
        by exact (store_at w [p0; prev] z rest pj).
      rewrite Hp0. cbn [mbind option_bind].
      rewrite S0. cbn [mbind option_bind]. rewrite Hprev. cbn [mbind option_bind].
      rewrite S1. cbn [mbind option_bind]. rewrite S2. cbn [mbind option_bind].
      replace (w ++ p0 :: prev :: pj :: rest) with ((w ++ [p0; prev; pj]) ++ rest)
        by (rewrite <- app_assoc; reflexivity).
      replace (Z.of_nat (length w) + 3) with (Z.of_nat (length (w ++ [p0; prev; pj])))
        by (rewrite length_app; cbn; lia).
      rewrite (IH (j + 1) _ rest pj (ntris + 3) Hc).
      * set (m := length (valid_slots (take n (drop (Z.to_nat (p + (j + 1))) polys)))).
        replace (3 * S m)%nat with (S (S (S (3 * m)))) by lia.
        rewrite !skipn_cons, length_app, <- app_assoc. cbn [length app].
        do 2 f_equal. lia.
      * replace (p + (j + 1 - 1)) with (p + j) by lia. exact Hpj.
      * lia.
Qed.

(** The slots of a polygon whose third slot can be read. *)
Lemma polygon_unfold pmesh i v :
  0 <= i -> 3 <= rcPolyMesh.nvp pmesh ->
  load (rcPolyMesh.polys pmesh) (i * rcPolyMesh.nvp pmesh * 2 + 2) = Some v ->
  exists p0 p1,
    load (rcPolyMesh.polys pmesh) (i * rcPolyMesh.nvp pmesh * 2 + 0) = Some p0 /\
    load (rcPolyMesh.polys pmesh) (i * rcPolyMesh.nvp pmesh * 2 + (2 - 1)) = Some p1 /\
    polygon pmesh i
    = p0 :: p1 :: take (Z.to_nat (rcPolyMesh.nvp pmesh - 2))
                    (drop (Z.to_nat (i * rcPolyMesh.nvp pmesh * 2 + 2))
                       (rcPolyMesh.polys pmesh)).
Proof.
  intros Hi Hnvp Hv. unfold polygon.
  set (polys := rcPolyMesh.polys pmesh) in *.
  set (nvp := rcPolyMesh.nvp pmesh) in *.
  set (p := i * nvp * 2) in *.
  assert (Hp : 0 <= p) by (unfold p; nia).
  apply load_Some in Hv as [_ Hv]. apply lookup_lt_Some in Hv.
  destruct (load_in_range polys (p + 0)) as [p0 Hp0]; [lia|].
  destruct (load_in_range polys (p + (2 - 1))) as [p1 Hp1]; [lia|].
  exists p0, p1. split; [done|]. split; [done|].
  apply load_Some in Hp0 as [_ Hp0]. apply load_Some in Hp1 as [_ Hp1].
  replace (Z.to_nat (p + 0)) with (Z.to_nat p) in Hp0 by lia.
  replace (Z.to_nat (p + (2 - 1))) with (S (Z.to_nat p)) in Hp1 by lia.
  rewrite (drop_lookup_cons _ _ _ Hp0), (drop_lookup_cons _ _ _ Hp1).
  replace (Z.to_nat nvp) with (S (S (Z.to_nat (nvp - 2)))) by lia.
  rewrite !firstn_cons.
  replace (Z.to_nat (p + 2)) with (S (S (Z.to_nat p))) by lia.
  reflexivity.
Qed.

Lemma spec_fan_short (p : list Z) : (length p <= 2)%nat -> spec_fan p = [].
Proof.
  destruct p as [|a [|b [|c p]]]; cbn; intros; try reflexivity; lia.
Qed.

(** One polygon: the sizing loop adds the length of its fan, and the
    emission loop writes its fan. *)
Lemma emit_polygon_spec pmesh i w rest ntris ntris' :
  0 <= i ->
  count_fan (rcPolyMesh.polys pmesh) (i * rcPolyMesh.nvp pmesh * 2)
    (Z.to_nat (rcPolyMesh.nvp pmesh - 2)) 2 ntris = Some ntris' ->
  let fan := spec_fan (polygon pmesh i) in
  ntris' = ntris + Z.of_nat (length fan) /\
  ((length fan <= length rest)%nat ->
   emit_fan (rcPolyMesh.polys pmesh) (i * rcPolyMesh.nvp pmesh * 2)
     (Z.to_nat (rcPolyMesh.nvp pmesh - 2)) 2 (Z.of_nat (length w)) (w ++ rest)
   = Some (Z.of_nat (length w) + Z.of_nat (length fan),
           w ++ fan ++ drop (length fan) rest)).
Proof.
  intros Hi Hc fan. subst fan.
  destruct (Z.to_nat (rcPolyMesh.nvp pmesh - 2)) as [|n] eqn:Hn.
  - rewrite spec_fan_short.
    2:{ unfold polygon. rewrite length_take. lia. }
    cbn in Hc. injection Hc as <-. cbn. split; [lia|]. intros _.
    do 2 f_equal. lia.
  - rewrite <- Hn in *. pose proof Hc as Hc'.
    rewrite Hn in Hc'. cbn [count_fan] in Hc'.
    destruct (load (rcPolyMesh.polys pmesh) (i * rcPolyMesh.nvp pmesh * 2 + 2))
      as [v|] eqn:Hv; [|discriminate]. clear Hc'.
    destruct (polygon_unfold pmesh i v) as (p0 & p1 & Hp0 & Hp1 & Hpoly);
      [lia|lia|done|].
    rewrite Hpoly. cbn [spec_fan]. rewrite spec_fan_from_length.
    split.
    + apply count_fan_spec in Hc. lia.
    + intros Hroom.
      rewrite (emit_fan_spec _ _ _ _ w rest p0 p1 _ _ Hc Hp0 Hp1) by exact Hroom.
      do 2 f_equal. lia.
Qed.

(** All polygons from [i] on: the sizing pass adds the length of their
    fans, and the emission pass writes them one after the other. *)
Lemma emit_triangles_spec pmesh n i w rest ntris ntris' :
  0 <= i ->
  count_indices (rcPolyMesh.polys pmesh) (rcPolyMesh.nvp pmesh) n i ntris
  = Some ntris' ->
  let all := spec_triangles pmesh i n in
  ntris' = ntris + Z.of_nat (length all) /\
  ((length all <= length rest)%nat ->
   emit_triangles (rcPolyMesh.polys pmesh) (rcPolyMesh.nvp pmesh) n i
     (Z.of_nat (length w)) (w ++ rest)
   = Some (Z.of_nat (length w) + Z.of_nat (length all),
           w ++ all ++ drop (length all) rest)).
Proof.
  revert i w rest ntris. induction n as [|n IH]; intros i w rest ntris Hi;
    cbn [count_indices emit_triangles].
  - intros [= <-]. unfold spec_triangles. rewrite seqZ_nil by lia. cbn.
    split; [lia|]. intros _. do 2 f_equal. lia.
  - destruct (count_fan _ _ _ _ _) as [ntris1|] eqn:Hfan; [|discriminate].
    cbn [mbind option_bind]. intros Hrest.
    destruct (emit_polygon_spec pmesh i w rest _ _ Hi Hfan) as [-> Hemit].
    unfold spec_triangles.
    rewrite seqZ_cons by lia. cbn [flat_map].
    replace (Z.pred (Z.of_nat (S n))) with (Z.of_nat n) by lia.
    change (flat_map _ (seqZ (Z.succ i) (Z.of_nat n)))
      with (spec_triangles pmesh (Z.succ i) n).
    replace (i + 1) with (Z.succ i) in * by lia.
    set (fan := spec_fan (polygon pmesh i)) in *.
    rewrite length_app.
    split.
    + destruct (IH (Z.succ i) w rest _ ltac:(lia) Hrest) as [-> _]. lia.
    + intros Hroom. rewrite Hemit by lia. cbn [mbind option_bind].
      replace (w ++ fan ++ drop (length fan) rest)
        with ((w ++ fan) ++ drop (length fan) rest) by (by rewrite <- app_assoc).
      replace (Z.of_nat (length w) + Z.of_nat (length fan))
        with (Z.of_nat (length (w ++ fan))) by (rewrite length_app; lia).
      destruct (IH (Z.succ i) (w ++ fan) (drop (length fan) rest) _ ltac:(lia) Hrest)
        as [_ ->].
      * rewrite drop_drop, length_app, <- !app_assoc. do 2 f_equal. lia.
      * rewrite length_drop. lia.
Qed.


Lemma count_fan_total polys p n j ntris :
  0 <= p + j ->
  (Z.to_nat (p + j) + n <= length polys)%nat ->
  is_Some (count_fan polys p n j ntris).
Proof.
  revert j ntris. induction n as [|n IH]; intros j ntris Hge Hlen; cbn [count_fan].
  - by eexists.
  - destruct (load_in_range polys (p + j)) as [pj ->]; [lia|].
    cbn [mbind option_bind]. destruct (pj =? RC_MESH_NULL_IDX); [by eexists|].
    apply IH; lia.
Qed.

Lemma count_indices_total polys nvp n i ntris :
  0 <= i -> 0 <= nvp ->
  (i + Z.of_nat n) * nvp * 2 <= Z.of_nat (length polys) ->
  is_Some (count_indices polys nvp n i ntris).
Proof.
  revert i ntris. induction n as [|n IH]; intros i ntris Hi Hnvp Hlen;
    cbn [count_indices].
  - by eexists.
  - assert (Hfan : is_Some (count_fan polys (i * nvp * 2) (Z.to_nat (nvp - 2)) 2 ntris)).
    { destruct (Z.le_gt_cases nvp 2) as [Hsmall|Hbig].
      - replace (Z.to_nat (nvp - 2)) with O by lia. by eexists.
      - apply count_fan_total; nia. }
    destruct Hfan as [ntris1 ->].
    cbn [mbind option_bind]. apply IH; [lia|lia|].
    replace (i + 1 + Z.of_nat n) with (i + Z.of_nat (S n)) by lia. done.
Qed.

(** On a well-formed mesh the sizing pass returns. *)
Lemma sizing_pass_total pmesh :
  poly_mesh_wf pmesh -> is_Some (sizing_pass pmesh).
Proof.
  intros (Hnv & Hverts & Hnp & Hnvp & Hpolys). unfold sizing_pass.
  apply count_indices_total; [lia|lia|].
  rewrite Z2Nat.id by lia. lia.
Qed.

(** The size the first pass computes is the number of entries the third
    pass writes: run on the buffer of that size, it fills it with the fans
    of the polygons and stops at its end. *)
Lemma sizing_emission pmesh ntris :
  sizing_pass pmesh = Some ntris ->
  ntris = Z.of_nat (length (spec_triangles pmesh 0 (Z.to_nat (rcPolyMesh.npolys pmesh)))) /\
  emission_pass pmesh (calloc_array ntris 0)
  = Some (ntris, spec_triangles pmesh 0 (Z.to_nat (rcPolyMesh.npolys pmesh))).
Proof.
  unfold sizing_pass, emission_pass, calloc_array. intros Hs.
  destruct (emit_triangles_spec pmesh _ 0 [] (replicate (Z.to_nat ntris) 0) _ _
              ltac:(lia) Hs) as [Hn Hemit].
  rewrite Z.add_0_l in Hn. split; [exact Hn|].
  cbn [app length] in Hemit. change (Z.of_nat 0) with 0 in Hemit. rewrite Hemit.
  - rewrite drop_ge, app_nil_r by (rewrite length_replicate; lia).
    do 2 f_equal. lia.
  - rewrite length_replicate. lia.
Qed.

(** ** The vertex pass *)

Lemma load_nth (a : list Z) i :
  0 <= i < Z.of_nat (length a) -> load a i = Some (nth (Z.to_nat i) a 0).
Proof.
  intros Hi. apply load_Some. split; [lia|].
  destruct (nth_lookup_or_length a (Z.to_nat i) 0); [done|lia].
Qed.

Lemma world_vertex_length pmesh x y z : length (world_vertex pmesh x y z) = 4%nat.
Proof. unfold world_vertex. destruct (rcPolyMesh.bmin pmesh) as [[? ?] ?]. reflexivity. Qed.

Lemma transform_verts_spec pmesh n i w rest :
  0 <= i ->
  (i + Z.of_nat n) * 3 <= Z.of_nat (length (rcPolyMesh.verts pmesh)) ->
  (4 * n <= length rest)%nat ->
  transform_verts pmesh n i (Z.of_nat (length w)) (w ++ rest)
  = Some (Z.of_nat (length w) + 4 * Z.of_nat n,
          w ++ spec_verts pmesh i n ++ drop (4 * n) rest).
Proof.
  revert i w rest. induction n as [|n IH]; intros i w rest Hi Hlen Hroom;
    cbn [transform_verts].
  - unfold spec_verts. rewrite seqZ_nil by lia. cbn. do 2 f_equal. lia.
  - destruct rest as [|x0 [|x1 [|x2 [|x3 rest]]]]; cbn [length] in Hroom; try lia.
    unfold spec_verts. rewrite seqZ_cons by lia. cbn [flat_map].
    replace (Z.pred (Z.of_nat (S n))) with (Z.of_nat n) by lia.
    change (flat_map _ (seqZ (Z.succ i) (Z.of_nat n)))
      with (spec_verts pmesh (Z.succ i) n).
    unfold world_vertex, grid_coord.
    destruct (rcPolyMesh.bmin pmesh) as [[orig0 orig1] orig2].
    rewrite !load_nth by lia. cbn [mbind option_bind].
    set (a0 := fadd orig0 _). set (a1 := fadd (fadd orig1 _) _).
    set (a2 := fadd orig2 _). set (a3 := float_of_int 0).
    assert (S0 : store (w ++ x0 :: x1 :: x2 :: x3 :: rest) (Z.of_nat (length w)) a0
                 = Some (w ++ a0 :: x1 :: x2 :: x3 :: rest)).
    { rewrite <- (Z.add_0_r (Z.of_nat (length w))).
      exact (store_at w [] x0 (x1 :: x2 :: x3 :: rest) a0). }
    assert (S1 : store (w ++ a0 :: x1 :: x2 :: x3 :: rest) (Z.of_nat (length w) + 1) a1
                 = Some (w ++ a0 :: a1 :: x2 :: x3 :: rest))
      by exact (store_at w [a0] x1 (x2 :: x3 :: rest) a1).
    assert (S2 : store (w ++ a0 :: a1 :: x2 :: x3 :: rest) (Z.of_nat (length w) + 2) a2
                 = Some (w ++ a0 :: a1 :: a2 :: x3 :: rest))
      by exact (store_at w [a0; a1] x2 (x3 :: rest) a2).
    assert (S3 : store (w ++ a0 :: a1 :: a2 :: x3 :: rest) (Z.of_nat (length w) + 3) a3
                 = Some (w ++ a0 :: a1 :: a2 :: a3 :: rest))
      by exact (store_at w [a0; a1; a2] x3 rest a3).
    rewrite S0. cbn [mbind option_bind]. rewrite S1. cbn [mbind option_bind].
    rewrite S2. cbn [mbind option_bind]. rewrite S3. cbn [mbind option_bind].
    replace (w ++ a0 :: a1 :: a2 :: a3 :: rest) with ((w ++ [a0; a1; a2; a3]) ++ rest)
      by (rewrite <- app_assoc; reflexivity).
    replace (Z.of_nat (length w) + 4) with (Z.of_nat (length (w ++ [a0; a1; a2; a3])))
      by (rewrite length_app; cbn; lia).
    replace (i + 1) with (Z.succ i) by lia.
    rewrite IH by lia.
    replace (4 * S n)%nat with (S (S (S (S (4 * n))))) by lia.
    rewrite !skipn_cons, length_app, <- app_assoc. cbn [length app].
    do 2 f_equal. lia.
Qed.

Lemma vertex_pass_spec pmesh :
  poly_mesh_wf pmesh ->
  vertex_pass pmesh (calloc_array (rcPolyMesh.nverts pmesh * 4) (float_of_int 0))
  = Some (rcPolyMesh.nverts pmesh * 4,
          spec_verts pmesh 0 (Z.to_nat (rcPolyMesh.nverts pmesh))).
Proof.
  intros (Hnv & Hverts & _). unfold vertex_pass, calloc_array.
  pose proof (transform_verts_spec pmesh (Z.to_nat (rcPolyMesh.nverts pmesh)) 0 []
                (replicate (Z.to_nat (rcPolyMesh.nverts pmesh * 4)) (float_of_int 0))) as Ht.
  cbn [app length] in Ht. change (Z.of_nat 0) with 0 in Ht. rewrite Ht.
  - rewrite drop_ge, app_nil_r by (rewrite length_replicate; lia).
    do 2 f_equal. lia.
  - lia.
  - lia.
  - rewrite length_replicate. lia.
Qed.

Lemma spec_verts_lookup pmesh first n d c :
  (d < n)%nat -> (c < 4)%nat ->
  spec_verts pmesh first n !! (4 * d + c)%nat
  = world_vertex pmesh (grid_coord pmesh (first + Z.of_nat d) 0)
      (grid_coord pmesh (first + Z.of_nat d) 1)
      (grid_coord pmesh (first + Z.of_nat d) 2) !! c.
Proof.
  revert first d. induction n as [|n IH]; intros first d Hd Hc; [lia|].
  unfold spec_verts. rewrite seqZ_cons by lia. cbn [flat_map].
  replace (Z.pred (Z.of_nat (S n))) with (Z.of_nat n) by lia.
  change (flat_map _ (seqZ (Z.succ first) (Z.of_nat n)))
    with (spec_verts pmesh (Z.succ first) n).
  destruct d as [|d].
  - rewrite lookup_app_l by (rewrite world_vertex_length; lia).
    replace (first + Z.of_nat 0) with first by lia. f_equal.
  - rewrite lookup_app_r by (rewrite world_vertex_length; lia).
    rewrite world_vertex_length.
    replace (4 * S d + c - 4)%nat with (4 * d + c)%nat by lia.
    rewrite IH by lia.
    replace (Z.succ first + Z.of_nat d) with (first + Z.of_nat (S d)) by lia.
    reflexivity.
Qed.

(** On a well-formed mesh, when the three allocations succeed, the
    function returns the mesh the specification describes. *)
Lemma bindingExtractVertsAndTriangles_ok e bbr pmesh :
  BindingBulkResult.poly_mesh bbr = Some pmesh ->
  poly_mesh_wf pmesh ->
  calloc_ret_ok e = true -> calloc_verts_ok e = true ->
  calloc_triangles_ok e = true ->
  bindingExtractVertsAndTriangles e bbr
  = Ret (BindingVertsAndTriangles.mk (rcPolyMesh.nverts pmesh)
           (Z.of_nat (length (spec_triangles pmesh 0
                                (Z.to_nat (rcPolyMesh.npolys pmesh)))))
           (spec_verts pmesh 0 (Z.to_nat (rcPolyMesh.nverts pmesh)))
           (spec_triangles pmesh 0 (Z.to_nat (rcPolyMesh.npolys pmesh)))).
Proof.
  intros Hpm Hwf Hr Hv Ht. unfold bindingExtractVertsAndTriangles.
  rewrite Hpm, Hr, Hv, Ht. cbn [negb].
  destruct (sizing_pass_total pmesh Hwf) as [ntris Hs]. rewrite Hs.
  destruct (sizing_emission pmesh ntris Hs) as [Hn He].
  rewrite vertex_pass_spec by exact Hwf. rewrite He. rewrite <- Hn. reflexivity.
Qed.


(** ** Properties of bindingGenerateDetour *)

(** The loop over the polygons sets the first [n] flags after [w] to 1. *)
Lemma set_poly_flags_spec n w rest :
  (n <= length rest)%nat ->
  set_poly_flags n (Z.of_nat (length w)) (w ++ rest)
  = Some (w ++ replicate n 1 ++ drop n rest).
Proof.
  revert w rest. induction n as [|n IH]; intros w rest Hn; cbn [set_poly_flags].
  - reflexivity.
  - destruct rest as [|x rest]; cbn [length] in Hn; [lia|].
    assert (S0 : store (w ++ x :: rest) (Z.of_nat (length w)) 1
                 = Some (w ++ 1 :: rest)).
    { rewrite <- (Z.add_0_r (Z.of_nat (length w))).
      exact (store_at w [] x rest 1). }
    rewrite S0.
    replace (w ++ 1 :: rest) with ((w ++ [1]) ++ rest)
      by (rewrite <- app_assoc; reflexivity).
    replace (Z.of_nat (length w) + 1) with (Z.of_nat (length (w ++ [1])))
      by (rewrite length_app; cbn; lia).
    rewrite IH by lia. rewrite <- app_assoc. reflexivity.
Qed.

Lemma set_poly_flags_all npolys flags :
  npolys <= Z.of_nat (length flags) ->
  set_poly_flags (Z.to_nat npolys) 0 flags
  = Some (replicate (Z.to_nat npolys) 1 ++ drop (Z.to_nat npolys) flags).
Proof.
  intros Hn. exact (set_poly_flags_spec (Z.to_nat npolys) [] flags ltac:(lia)).
Qed.

(** C4: when [max_verts_per_poly] exceeds [DT_VERTS_PER_POLYGON] the
    function returns [BD_ERR_VERTICES] at once: the envelope and its
    polygon flags are as before, nothing is stored through [result] and
    [result_size], and no function of Detour is called. *)
Theorem bindingGenerateDetour_too_many_verts e data agentHeight agentRadius
    agentMaxClimb :
  DT_VERTS_PER_POLYGON < BindingBulkResult.max_verts_per_poly data ->
  bindingGenerateDetour e data agentHeight agentRadius agentMaxClimb
  = Ret {| status := BD_ERR_VERTICES;
           data_after := data;
           result_written := None;
           result_size_written := None;
           detour_trace := [] |}.
Proof.
  intros Hmax. unfold bindingGenerateDetour.
  destruct (Z.ltb_spec DT_VERTS_PER_POLYGON
              (BindingBulkResult.max_verts_per_poly data)); [reflexivity|lia].
Qed.

(** C10: when the vertex check passes and [dtCreateNavMeshData] succeeds
    but [dtAllocNavMesh] fails, the function frees the serialized buffer,
    returns [BD_ERR_ALLOC_NAVMESH] and stores nothing through [result] and
    [result_size]; the polygon flags were set to 1 before. *)
Theorem bindingGenerateDetour_alloc_navmesh_fails e data poly_mesh poly_mesh_detail
    agentHeight agentRadius agentMaxClimb navData navDataSize :
  BindingBulkResult.max_verts_per_poly data <= DT_VERTS_PER_POLYGON ->
  BindingBulkResult.poly_mesh data = Some poly_mesh ->
  BindingBulkResult.poly_mesh_detail data = Some poly_mesh_detail ->
  rcPolyMesh.npolys poly_mesh <= Z.of_nat (length (rcPolyMesh.flags poly_mesh)) ->
  dtCreateNavMeshData_first e = Some (navData, navDataSize) ->
  dtAllocNavMesh_ok e = false ->
  exists fin params,
    bindingGenerateDetour e data agentHeight agentRadius agentMaxClimb = Ret fin /\
    status fin = BD_ERR_ALLOC_NAVMESH /\
    result_written fin = None /\
    result_size_written fin = None /\
    detour_trace fin
    = [DtCreateNavMeshData params true; DtAllocNavMesh false; DtFree navData] /\
    data_after fin
    = BindingBulkResult.with_poly_mesh data
        (Some (rcPolyMesh.with_flags poly_mesh
                 (replicate (Z.to_nat (rcPolyMesh.npolys poly_mesh)) 1
                  ++ drop (Z.to_nat (rcPolyMesh.npolys poly_mesh))
                       (rcPolyMesh.flags poly_mesh)))).
Proof.
  intros Hmax Hpm Hdm Hflags Hnav Halloc. unfold bindingGenerateDetour.
  destruct (Z.ltb_spec DT_VERTS_PER_POLYGON
              (BindingBulkResult.max_verts_per_poly data)); [lia|].
  rewrite Hpm, (set_poly_flags_all _ _ Hflags). cbn [BindingBulkResult.with_poly_mesh
    BindingBulkResult.poly_mesh_detail].
  rewrite Hdm, Hnav, Halloc. cbn [negb].
  eexists _, _. repeat split.
Qed.

(** ** Properties of bindingExtractVertsAndTriangles *)

Lemma spec_triangles_app pmesh first n m :
  spec_triangles pmesh first (n + m)
  = spec_triangles pmesh first n ++ spec_triangles pmesh (first + Z.of_nat n) m.
Proof.
  unfold spec_triangles.
  replace (Z.of_nat (n + m)) with (Z.of_nat n + Z.of_nat m) by lia.
  rewrite seqZ_app by lia. apply flat_map_app.
Qed.

Lemma spec_triangles_one pmesh i :
  spec_triangles pmesh i 1 = spec_fan (polygon pmesh i).
Proof.
  unfold spec_triangles. rewrite seqZ_cons by lia.
  rewrite seqZ_nil by lia. cbn. apply app_nil_r.
Qed.

(** The fan over the slots after [prev]: triangle [j] is
    [(p0, slot j, slot (j+1))] of the list [prev :: slots]. *)
Lemma spec_fan_from_lookup p0 prev slots j :
  (j < length slots)%nat ->
  spec_fan_from p0 prev slots !! (3 * j)%nat = Some p0 /\
  spec_fan_from p0 prev slots !! (3 * j + 1)%nat = (prev :: slots) !! j /\
  spec_fan_from p0 prev slots !! (3 * j + 2)%nat = (prev :: slots) !! S j.
Proof.
  revert prev j. induction slots as [|v slots IH]; intros prev j Hj;
    cbn [length] in Hj; [lia|].
  destruct j as [|j].
  - cbn. auto.
  - cbn [spec_fan_from].
    replace (3 * S j + 1)%nat with (S (S (S (3 * j + 1)))) by lia.
    replace (3 * S j + 2)%nat with (S (S (S (3 * j + 2)))) by lia.
    replace (3 * S j)%nat with (S (S (S (3 * j)))) by lia.
    destruct (IH v j ltac:(lia)) as (E0 & E1 & E2).
    repeat split; [exact E0|exact E1|exact E2].
Qed.

(** A polygon with at least three valid slots starts with two of them. *)
Lemma valid_slots_three p :
  (3 <= length (valid_slots p))%nat ->
  exists p0 p1 rest,
    p = p0 :: p1 :: rest /\
    valid_slots p = p0 :: p1 :: valid_slots rest.
Proof.
  destruct p as [|p0 [|p1 rest]]; cbn [valid_slots length]; try lia.
  - destruct (p0 =? RC_MESH_NULL_IDX); cbn; lia.
  - destruct (p0 =? RC_MESH_NULL_IDX); cbn [length]; [lia|].
    destruct (p1 =? RC_MESH_NULL_IDX); cbn [length]; [lia|].
    intros _. by eexists _, _, _.
Qed.

(** C5: for a polygon with [k >= 3] valid vertex slots [vs] (the slots of
    the polygon before the null index), the index buffer returned is the
    entries of the polygons before it, then [k - 2] triangles for this
    polygon, then the entries of the polygons after it; the triangle of
    slot [j], for [j] from 2 to [k - 1], is [(vs[0], vs[j-1], vs[j])]. *)
Theorem fan_triangulation e bbr pmesh i vs :
  BindingBulkResult.poly_mesh bbr = Some pmesh ->
  poly_mesh_wf pmesh ->
  calloc_ret_ok e = true -> calloc_verts_ok e = true ->
  calloc_triangles_ok e = true ->
  0 <= i < rcPolyMesh.npolys pmesh ->
  vs = valid_slots (polygon pmesh i) ->
  (3 <= length vs)%nat ->
  exists em fan,
    bindingExtractVertsAndTriangles e bbr = Ret em /\
    BindingVertsAndTriangles.triangles em
    = spec_triangles pmesh 0 (Z.to_nat i)
      ++ fan
      ++ spec_triangles pmesh (i + 1) (Z.to_nat (rcPolyMesh.npolys pmesh - i - 1)) /\
    length fan = (3 * (length vs - 2))%nat /\
    forall j, (2 <= j < length vs)%nat ->
      fan !! (3 * (j - 2))%nat = vs !! 0%nat /\
      fan !! (3 * (j - 2) + 1)%nat = vs !! (j - 1)%nat /\
      fan !! (3 * (j - 2) + 2)%nat = vs !! j.
Proof.
  intros Hpm Hwf Hr Hv Ht Hi -> Hk.
  exists (BindingVertsAndTriangles.mk (rcPolyMesh.nverts pmesh)
           (Z.of_nat (length (spec_triangles pmesh 0
                                (Z.to_nat (rcPolyMesh.npolys pmesh)))))
           (spec_verts pmesh 0 (Z.to_nat (rcPolyMesh.nverts pmesh)))
           (spec_triangles pmesh 0 (Z.to_nat (rcPolyMesh.npolys pmesh)))).
  exists (spec_fan (polygon pmesh i)).
  split; [by apply bindingExtractVertsAndTriangles_ok|].
  cbn [BindingVertsAndTriangles.triangles].
  split.
  { replace (Z.to_nat (rcPolyMesh.npolys pmesh))
      with (Z.to_nat i + (1 + Z.to_nat (rcPolyMesh.npolys pmesh - i - 1)))%nat by lia.
    rewrite !spec_triangles_app, spec_triangles_one.
    rewrite Z.add_0_l, Z2Nat.id by lia. reflexivity. }
  destruct (valid_slots_three _ Hk) as (p0 & p1 & rest & Hp & Hvs).
  rewrite Hp, Hvs in *. cbn [spec_fan length] in *.
  rewrite spec_fan_from_length. split; [lia|].
  intros j Hj.
  destruct (spec_fan_from_lookup p0 p1 (valid_slots rest) (j - 2) ltac:(lia))
    as (E0 & E1 & E2).
  rewrite E0, E1, E2.
  destruct j as [|[|j]]; try lia.
  replace (S (S j) - 2)%nat with j by lia.
  replace (S (S j) - 1)%nat with (S j) by lia.
  repeat split.
Qed.


(** C6: the size [bindingExtractVertsAndTriangles] computes in its sizing
    pass is the number of index entries its emission pass writes.  For
    every mesh the function returns, [ntris] is what the sizing pass
    computed, the emission pass on the buffer of that size ends with its
    cursor at the size and gives the returned buffer, whose length is the
    size and whose entries are all written (it is the list of the fans).
    The emission pass never leaves the buffer: a store outside it is a
    fault, and the function faults only when the structure could not be
    allocated or when the sizing or the vertex pass left the arrays of the
    mesh.  Whenever the sizing pass completes, the emission pass on the
    buffer of that size completes; and on a well-formed mesh, with the
    three allocations succeeding, the function returns. *)
Theorem sizing_matches_emission e bbr pmesh :
  BindingBulkResult.poly_mesh bbr = Some pmesh ->
  (forall em,
     bindingExtractVertsAndTriangles e bbr = Ret em ->
     sizing_pass pmesh = Some (BindingVertsAndTriangles.ntris em) /\
     emission_pass pmesh (calloc_array (BindingVertsAndTriangles.ntris em) 0)
     = Some (BindingVertsAndTriangles.ntris em,
             BindingVertsAndTriangles.triangles em) /\
     Z.of_nat (length (BindingVertsAndTriangles.triangles em))
     = BindingVertsAndTriangles.ntris em /\
     BindingVertsAndTriangles.triangles em
     = spec_triangles pmesh 0 (Z.to_nat (rcPolyMesh.npolys pmesh))) /\
  (bindingExtractVertsAndTriangles e bbr = Fault ->
   calloc_ret_ok e = false \/
   sizing_pass pmesh = None \/
   vertex_pass pmesh (calloc_array (rcPolyMesh.nverts pmesh * 4) (float_of_int 0))
   = None) /\
  (forall ntris,
     sizing_pass pmesh = Some ntris ->
     exists trisArray,
       emission_pass pmesh (calloc_array ntris 0) = Some (ntris, trisArray) /\
       Z.of_nat (length trisArray) = ntris /\
       trisArray = spec_triangles pmesh 0 (Z.to_nat (rcPolyMesh.npolys pmesh))) /\
  (poly_mesh_wf pmesh ->
   calloc_ret_ok e = true -> calloc_verts_ok e = true ->
   calloc_triangles_ok e = true ->
   exists em, bindingExtractVertsAndTriangles e bbr = Ret em).
Proof.
  intros Hpm. unfold bindingExtractVertsAndTriangles. rewrite Hpm.
  split; [|split; [|split]].
  - intros em.
    destruct (calloc_ret_ok e); cbn [negb]; [|discriminate].
    destruct (calloc_verts_ok e); cbn [negb]; [|discriminate].
    destruct (sizing_pass pmesh) as [ntris|] eqn:Hs; [|discriminate].
    destruct (calloc_triangles_ok e); cbn [negb]; [|discriminate].
    destruct (vertex_pass pmesh _) as [[k verts]|]; [|discriminate].
    destruct (sizing_emission pmesh ntris Hs) as [Hn He]. rewrite He.
    intros [= <-].
    cbn [BindingVertsAndTriangles.ntris BindingVertsAndTriangles.triangles].
    split; [reflexivity|]. split; [exact He|]. split; [lia|reflexivity].
  - destruct (calloc_ret_ok e); cbn [negb]; [|intros _; left; reflexivity].
    destruct (calloc_verts_ok e); cbn [negb]; [|discriminate].
    destruct (sizing_pass pmesh) as [ntris|] eqn:Hs;
      [|intros _; right; left; reflexivity].
    destruct (calloc_triangles_ok e); cbn [negb]; [|discriminate].
    destruct (vertex_pass pmesh _) as [[k verts]|];
      [|intros _; right; right; reflexivity].
    destruct (sizing_emission pmesh ntris Hs) as [_ He]. rewrite He. discriminate.
  - intros ntris Hs. destruct (sizing_emission pmesh ntris Hs) as [Hn He].
    eexists. split; [exact He|]. split; [lia|reflexivity].
  - intros Hwf Hr Hv Ht. eexists.
    pose proof (bindingExtractVertsAndTriangles_ok e bbr pmesh Hpm Hwf Hr Hv Ht)
      as Hok.
    unfold bindingExtractVertsAndTriangles in Hok. rewrite Hpm in Hok. exact Hok.
Qed.

(** C7: vertex [i] of the mesh, at grid coordinates [(x, y, z)], is
    extracted as the four floats [orig0 + x * cs],
    [orig1 + (y + 1) * ch + 0.1f], [orig2 + z * cs] and [0], where
    [orig] is [bmin]. *)
Theorem vertex_world_position e bbr pmesh i x y z orig0 orig1 orig2 :
  BindingBulkResult.poly_mesh bbr = Some pmesh ->
  poly_mesh_wf pmesh ->
  calloc_ret_ok e = true -> calloc_verts_ok e = true ->
  calloc_triangles_ok e = true ->
  0 <= i < rcPolyMesh.nverts pmesh ->
  load (rcPolyMesh.verts pmesh) (i * 3 + 0) = Some x ->
  load (rcPolyMesh.verts pmesh) (i * 3 + 1) = Some y ->
  load (rcPolyMesh.verts pmesh) (i * 3 + 2) = Some z ->
  rcPolyMesh.bmin pmesh = (orig0, orig1, orig2) ->
  exists em,
    bindingExtractVertsAndTriangles e bbr = Ret em /\
    BindingVertsAndTriangles.nverts em = rcPolyMesh.nverts pmesh /\
    Z.of_nat (length (BindingVertsAndTriangles.verts em))
    = 4 * rcPolyMesh.nverts pmesh /\
    load (BindingVertsAndTriangles.verts em) (i * 4 + 0)
    = Some (fadd orig0 (fmul (float_of_int x) (rcPolyMesh.cs pmesh))) /\
    load (BindingVertsAndTriangles.verts em) (i * 4 + 1)
    = Some (fadd (fadd orig1 (fmul (float_of_int (y + 1)) (rcPolyMesh.ch pmesh)))
              f0_1) /\
    load (BindingVertsAndTriangles.verts em) (i * 4 + 2)
    = Some (fadd orig2 (fmul (float_of_int z) (rcPolyMesh.cs pmesh))) /\
    load (BindingVertsAndTriangles.verts em) (i * 4 + 3)
    = Some (float_of_int 0).
Proof.
  intros Hpm Hwf Hr Hv Ht Hi Hx Hy Hz Hb.
  eexists. split; [by apply bindingExtractVertsAndTriangles_ok|].
  cbn [BindingVertsAndTriangles.nverts BindingVertsAndTriangles.verts].
  split; [reflexivity|].
  assert (Hlen : forall n first, length (spec_verts pmesh first n) = (4 * n)%nat).
  { induction n as [|n IH]; intros first; unfold spec_verts.
    - rewrite seqZ_nil by lia. reflexivity.
    - rewrite seqZ_cons by lia. cbn [flat_map].
      replace (Z.pred (Z.of_nat (S n))) with (Z.of_nat n) by lia.
      rewrite length_app, world_vertex_length.
      change (flat_map _ (seqZ (Z.succ first) (Z.of_nat n)))
        with (spec_verts pmesh (Z.succ first) n).
      rewrite IH. lia. }
  split; [rewrite Hlen; lia|].
  assert (Hg : forall c v, 0 <= c < 3 ->
            load (rcPolyMesh.verts pmesh) (i * 3 + c) = Some v ->
            grid_coord pmesh (0 + Z.of_nat (Z.to_nat i)) c = v).
  { intros c v Hc Hl. apply load_Some in Hl as [_ Hl]. unfold grid_coord.
    rewrite Z.add_0_l, Z2Nat.id by lia. by apply nth_lookup_Some. }
  assert (Hlook : forall c, (c < 4)%nat ->
            load (spec_verts pmesh 0 (Z.to_nat (rcPolyMesh.nverts pmesh)))
                 (i * 4 + Z.of_nat c)
            = world_vertex pmesh x y z !! c).
  { intros c Hc. unfold load.
    destruct (Z.leb_spec 0 (i * 4 + Z.of_nat c)); [|lia].
    replace (Z.to_nat (i * 4 + Z.of_nat c)) with (4 * Z.to_nat i + c)%nat by lia.
    rewrite spec_verts_lookup by lia.
    rewrite (Hg 0 x), (Hg 1 y), (Hg 2 z) by (done || lia). reflexivity. }
  unfold world_vertex in Hlook. rewrite Hb in Hlook.
  repeat split.
  - exact (Hlook 0%nat ltac:(lia)).
  - exact (Hlook 1%nat ltac:(lia)).
  - exact (Hlook 2%nat ltac:(lia)).
  - exact (Hlook 3%nat ltac:(lia)).
Qed.

Lemma spec_fan_length p :
  length (spec_fan p) = (3 * length (valid_slots (drop 2 p)))%nat.
Proof.
  destruct p as [|p0 [|p1 rest]]; try reflexivity.
  cbn [spec_fan drop]. apply spec_fan_from_length.
Qed.

Lemma spec_triangles_length pmesh first n :
  length (spec_triangles pmesh first n)
  = (3 * spec_triangle_count pmesh first n)%nat.
Proof.
  unfold spec_triangles, spec_triangle_count.
  induction (seqZ first (Z.of_nat n)) as [|i l IH]; [reflexivity|].
  cbn [flat_map map list_sum fold_right]. rewrite length_app, IH, spec_fan_length.
  fold (list_sum (map (fun i => length (valid_slots (drop 2 (polygon pmesh i)))) l)). lia.
Qed.

(** C9: the field [ntris] of a returned mesh is three times the number of
    triangles emitted, and it is the length of the [triangles] buffer. *)
Theorem ntris_counts_index_entries e bbr em :
  bindingExtractVertsAndTriangles e bbr = Ret em ->
  exists pmesh,
    BindingBulkResult.poly_mesh bbr = Some pmesh /\
    BindingVertsAndTriangles.triangles em
    = spec_triangles pmesh 0 (Z.to_nat (rcPolyMesh.npolys pmesh)) /\
    BindingVertsAndTriangles.ntris em
    = 3 * Z.of_nat (spec_triangle_count pmesh 0
                      (Z.to_nat (rcPolyMesh.npolys pmesh))) /\
    Z.of_nat (length (BindingVertsAndTriangles.triangles em))
    = BindingVertsAndTriangles.ntris em.
Proof.
  unfold bindingExtractVertsAndTriangles.
  destruct (BindingBulkResult.poly_mesh bbr) as [pmesh|]; [|discriminate].
  destruct (calloc_ret_ok e); [|discriminate].
  destruct (calloc_verts_ok e); [|discriminate]. cbn [negb].
  destruct (sizing_pass pmesh) as [ntris|] eqn:Hs; [|discriminate].
  destruct (calloc_triangles_ok e); [|discriminate]. cbn [negb].
  destruct (vertex_pass _ _) as [[k verts]|]; [|discriminate].
  destruct (sizing_emission pmesh ntris Hs) as [Hn He]. rewrite He.
  intros [= <-]. exists pmesh.
  cbn [BindingVertsAndTriangles.triangles BindingVertsAndTriangles.ntris].
  split; [reflexivity|]. split; [reflexivity|].
  pose proof (spec_triangles_length pmesh 0 (Z.to_nat (rcPolyMesh.npolys pmesh))).
  split; lia.
Qed.

(** ** The status codes *)

(** Distinct statuses have distinct values: a status identifies the step
    that failed. *)
Lemma BCodeStatus_value_inj c1 c2 :
  BCodeStatus_value c1 = BCodeStatus_value c2 -> c1 = c2.
Proof. destruct c1, c2; cbn; intros Hv; first [reflexivity | discriminate Hv]. Qed.

Lemma BDetourStatus_value_inj c1 c2 :
  BDetourStatus_value c1 = BDetourStatus_value c2 -> c1 = c2.
Proof. destruct c1, c2; cbn; intros Hv; first [reflexivity | discriminate Hv]. Qed.

(** ** Further properties of bindingRunBulk *)

Lemma only_frees_after_failure_spec t :
  only_frees_after_failure t = true ->
  forall pre ev post,
    t = pre ++ ev :: post -> is_failure ev = true ->
    forallb is_free post = true.
Proof.
  induction t as [|ev0 t IH]; intros Hc pre ev post Ht Hev.
  - destruct pre; discriminate Ht.
  - cbn [only_frees_after_failure] in Hc. destruct pre as [|ev1 pre].
    + injection Ht as -> ->. rewrite Hev in Hc. exact Hc.
    + injection Ht as -> ->. destruct (is_failure ev1).
      * rewrite forallb_app in Hc. apply andb_true_iff in Hc as [_ Hc].
        cbn [forallb] in Hc. apply andb_true_iff in Hc as [_ Hc]. exact Hc.
      * exact (IH Hc pre ev post eq_refl Hev).
Qed.

(** X1: a returned envelope names the step that failed.  The trace holds
    at most one failure; the status is [BCODE_OK] when it holds none, and
    otherwise the status the source assigns to that failed step. *)
Theorem status_names_failed_step e cfg flags verts nverts tris ntris r :
  fst (bindingRunBulk e cfg flags verts nverts tris ntris) = Ret r ->
  match List.filter is_failure
          (snd (bindingRunBulk e cfg flags verts nverts tris ntris)) with
  | [] => BindingBulkResult.code r = BCODE_OK
  | [ev] => status_of_failure ev = Some (BindingBulkResult.code r)
  | _ => False
  end.
Proof.
  run_pipeline; intros [= <-]; split_filters flags; vm_compute; reflexivity.
Qed.

(** X2: the pipeline stops at the first failure: whatever follows a failed
    allocation or a failed library call in the trace is a release. *)
Theorem only_releases_follow_a_failure e cfg flags verts nverts tris ntris
    pre ev post :
  snd (bindingRunBulk e cfg flags verts nverts tris ntris) = pre ++ ev :: post ->
  is_failure ev = true ->
  Forall (fun ev' => exists s, ev' = Free s) post.
Proof.
  intros Ht Hev.
  assert (Hc : only_frees_after_failure
                 (snd (bindingRunBulk e cfg flags verts nverts tris ntris)) = true).
  { clear. run_pipeline; split_filters flags; vm_compute; reflexivity. }
  pose proof (only_frees_after_failure_spec _ Hc pre ev post Ht Hev) as Hf.
  apply List.Forall_forall. intros ev' Hin.
  rewrite List.forallb_forall in Hf. specialize (Hf ev' Hin).
  destruct ev'; try discriminate Hf. by eexists.
Qed.

(** X3: the per-triangle area array, once allocated, is held at every
    return of the function, the successful one included. *)
Theorem tri_areas_held_at_return e cfg flags verts nverts tris ntris :
  In (Alloc Res_tri_areas true)
     (snd (bindingRunBulk e cfg flags verts nverts tris ntris)) ->
  held Res_tri_areas (snd (bindingRunBulk e cfg flags verts nverts tris ntris)).
Proof.
  rewrite In_occurs. intros Hin. apply heldb_spec. revert Hin.
  unfold heldb, allocs, frees.
  run_pipeline; split_filters flags; eval_occurs; intros Hin;
    first [congruence | reflexivity].
Qed.

Lemma testbit_land_pow2 a n :
  0 <= n -> Z.testbit a n = negb (Z.land a (2 ^ n) =? 0).
Proof.
  intros Hn. destruct (Z.testbit a n) eqn:Hb; symmetry.
  - apply negb_true_iff, Z.eqb_neq. intros Hz.
    assert (Hbit : Z.testbit (Z.land a (2 ^ n)) n = true).
    { rewrite Z.land_spec, Hb, Z.pow2_bits_true by lia. reflexivity. }
    rewrite Hz, Z.bits_0 in Hbit. discriminate.
  - apply negb_false_iff, Z.eqb_eq. apply Z.bits_inj'. intros m Hm.
    rewrite Z.land_spec, Z.bits_0.
    destruct (Z.eq_dec n m) as [<-|Hne].
    + rewrite Hb. reflexivity.
    + rewrite (Z.pow2_bits_false n m) by lia. apply andb_false_r.
Qed.

(** X4: after a successful rasterization the filters run are those whose
    bit of [flags] is set (bit 0: low hanging obstacles, bit 1: ledge
    spans, bit 2: low height spans), once each and in that order. *)
Theorem filters_follow_the_flag_bits e cfg flags verts nverts tris ntris :
  In (Call rcRasterizeTriangles true)
     (snd (bindingRunBulk e cfg flags verts nverts tris ntris)) ->
  filter_events (snd (bindingRunBulk e cfg flags verts nverts tris ntris))
  = (if Z.testbit flags 0 then [Call rcFilterLowHangingWalkableObstacles true] else [])
    ++ (if Z.testbit flags 1 then [Call rcFilterLedgeSpans true] else [])
    ++ (if Z.testbit flags 2 then [Call rcFilterWalkableLowHeightSpans true] else []).
Proof.
  rewrite In_occurs.
  rewrite (testbit_land_pow2 flags 0), (testbit_land_pow2 flags 1),
    (testbit_land_pow2 flags 2) by lia.
  change (2 ^ 0) with 1. change (2 ^ 1) with 2. change (2 ^ 2) with 4.
  run_pipeline; split_filters flags; eval_occurs; intros Hin;
    first [congruence | reflexivity].
Qed.

(** X5: a mesh without vertices is not an error: the diagnostic is printed
    exactly when the bake succeeds with an empty polygon mesh, and the
    status is [BCODE_OK] all the same. *)
Theorem empty_mesh_is_diagnosed e cfg flags verts nverts tris ntris r :
  fst (bindingRunBulk e cfg flags verts nverts tris ntris) = Ret r ->
  (In Printf (snd (bindingRunBulk e cfg flags verts nverts tris ntris)) <->
   BindingBulkResult.code r = BCODE_OK /\
   rcPolyMesh.nverts (built_poly_mesh e) = 0).
Proof.
  rewrite In_occurs.
  run_pipeline; intros [= <-]; split_filters flags; eval_occurs;
    cbn [BindingBulkResult.code BindingBulkResult.with_code
         BindingBulkResult.with_poly_mesh BindingBulkResult.with_poly_mesh_detail].
  all: split;
    [ intros Hp;
      first [congruence | split; [reflexivity | apply Z.eqb_eq; assumption]]
    | intros [Hc Hn]; try discriminate Hc; try discriminate;
      match goal with
      | Hb : (_ =? 0) = false |- _ => apply Z.eqb_neq in Hb; contradiction
      end ].
Qed.

(** X6: [bindingRelease] may be called on every envelope the pipeline
    returns, failed or successful: together the two functions release each
    stage structure and the envelope exactly once (or never allocated it),
    so that nothing is released twice and only the per-triangle area array
    stays behind. *)
Theorem bindingRelease_after_bake e cfg flags verts nverts tris ntris r :
  fst (bindingRunBulk e cfg flags verts nverts tris ntris) = Ret r ->
  exists t,
    bindingRelease (Some r) = Ret t /\
    Forall (fun s =>
      released s (snd (bindingRunBulk e cfg flags verts nverts tris ntris) ++ t))
      (stage_resources ++ [Res_result]) /\
    allocs Res_result (snd (bindingRunBulk e cfg flags verts nverts tris ntris))
    = 1%nat.
Proof.
  intros Hr.
  assert (Hb : exists t,
    bindingRelease (Some r) = Ret t /\
    forallb (fun s =>
      releasedb s (snd (bindingRunBulk e cfg flags verts nverts tris ntris) ++ t))
      (stage_resources ++ [Res_result]) = true /\
    allocs Res_result (snd (bindingRunBulk e cfg flags verts nverts tris ntris))
    = 1%nat).
  { revert Hr.
    run_pipeline; intros [= <-]; (eexists; split; [reflexivity|]);
      split_filters flags; split; vm_compute; reflexivity. }
  destruct Hb as (t & Ht & Hrel & Hres). exists t. split; [exact Ht|].
  split; [|exact Hres].
  apply List.Forall_forall. intros s Hs. apply releasedb_spec.
  rewrite List.forallb_forall in Hrel. exact (Hrel s Hs).
Qed.

(** ** Further properties of bindingGenerateDetour *)

Lemma set_poly_flags_room n w rest flags' :
  set_poly_flags n (Z.of_nat (length w)) (w ++ rest) = Some flags' ->
  (n <= length rest)%nat.
Proof.
  revert w rest. induction n as [|n IH]; intros w rest; cbn [set_poly_flags];
    [lia|].
  destruct rest as [|x rest].
  - unfold store. rewrite app_nil_r.
    destruct (Z.ltb_spec (Z.of_nat (length w)) (Z.of_nat (length w))); [lia|].
    rewrite andb_false_r. discriminate.
  - assert (S0 : store (w ++ x :: rest) (Z.of_nat (length w)) 1
                 = Some (w ++ 1 :: rest)).
    { rewrite <- (Z.add_0_r (Z.of_nat (length w))).
      exact (store_at w [] x rest 1). }
    rewrite S0.
    replace (w ++ 1 :: rest) with ((w ++ [1]) ++ rest)
      by (rewrite <- app_assoc; reflexivity).
    replace (Z.of_nat (length w) + 1) with (Z.of_nat (length (w ++ [1])))
      by (rewrite length_app; cbn; lia).
    intros Hs. apply IH in Hs. cbn [length]. lia.
Qed.

(** The loop returns only when the array covers [npolys], and then with
    the first [npolys] flags set. *)
Lemma set_poly_flags_returns npolys flags flags' :
  set_poly_flags (Z.to_nat npolys) 0 flags = Some flags' ->
  npolys <= Z.of_nat (length flags) /\
  flags' = replicate (Z.to_nat npolys) 1 ++ drop (Z.to_nat npolys) flags.
Proof.
  intros Hs.
  pose proof (set_poly_flags_room (Z.to_nat npolys) [] flags flags' Hs) as Hroom.
  assert (Hle : npolys <= Z.of_nat (length flags)) by lia.
  split; [exact Hle|].
  rewrite (set_poly_flags_all _ _ Hle) in Hs. by injection Hs.
Qed.

(** X7: every call that gets past the vertex check and returns has set the
    flag of every polygon to 1, on the error paths too, and has changed
    nothing else: the flags beyond [npolys], the other arrays of the mesh
    and the other fields of the envelope are as before. *)
Theorem bindingGenerateDetour_sets_every_flag e data agentHeight agentRadius
    agentMaxClimb fin :
  BindingBulkResult.max_verts_per_poly data <= DT_VERTS_PER_POLYGON ->
  bindingGenerateDetour e data agentHeight agentRadius agentMaxClimb = Ret fin ->
  exists poly_mesh flags',
    BindingBulkResult.poly_mesh data = Some poly_mesh /\
    data_after fin
    = BindingBulkResult.with_poly_mesh data
        (Some (rcPolyMesh.with_flags poly_mesh flags')) /\
    length flags' = length (rcPolyMesh.flags poly_mesh) /\
    (forall i, 0 <= i < rcPolyMesh.npolys poly_mesh -> load flags' i = Some 1) /\
    (forall i, rcPolyMesh.npolys poly_mesh <= i ->
       load flags' i = load (rcPolyMesh.flags poly_mesh) i).
Proof.
  intros Hmax. unfold bindingGenerateDetour.
  destruct (Z.ltb_spec DT_VERTS_PER_POLYGON
              (BindingBulkResult.max_verts_per_poly data)); [lia|].
  destruct (BindingBulkResult.poly_mesh data) as [pm|]; [|discriminate].
  destruct (set_poly_flags _ _ _) as [flags'|] eqn:Hs; [|discriminate].
  apply set_poly_flags_returns in Hs as [Hle ->].
  cbn [BindingBulkResult.with_poly_mesh BindingBulkResult.poly_mesh_detail].
  destruct (BindingBulkResult.poly_mesh_detail data) as [dm|]; [|discriminate].
  intros Hfin.
  assert (Hafter : data_after fin
            = BindingBulkResult.with_poly_mesh data
                (Some (rcPolyMesh.with_flags pm
                   (replicate (Z.to_nat (rcPolyMesh.npolys pm)) 1
                    ++ drop (Z.to_nat (rcPolyMesh.npolys pm)) (rcPolyMesh.flags pm))))).
  { destruct (dtCreateNavMeshData_first e) as [[navData navDataSize]|];
      [destruct (dtAllocNavMesh_ok e)|]; cbn [negb] in Hfin;
      injection Hfin as <-; reflexivity. }
  eexists pm, _. split; [reflexivity|]. split; [exact Hafter|].
  split; [|split].
  - rewrite length_app, length_replicate, length_drop. lia.
  - intros i Hi. apply load_Some. split; [lia|].
    rewrite lookup_app_l by (rewrite length_replicate; lia).
    apply lookup_replicate_2. lia.
  - intros i Hi. unfold load. destruct (Z.leb_spec 0 i); [|reflexivity].
    destruct (Z.le_gt_cases 0 (rcPolyMesh.npolys pm)) as [Hnp|Hnp].
    + rewrite lookup_app_r by (rewrite length_replicate; lia).
      rewrite length_replicate, lookup_drop. f_equal. lia.
    + replace (Z.to_nat (rcPolyMesh.npolys pm)) with O by lia. reflexivity.
Qed.

(** X8: the status of a returning call tells what happened, and the
    buffer changes hands exactly on [BD_OK]: [BD_ERR_VERTICES] when the
    envelope asks for too many vertices per polygon, [BD_ERR_BUILD_NAVMESH]
    when the (first) serialization fails, [BD_ERR_ALLOC_NAVMESH] when the
    navmesh object cannot be allocated, never [BD_ERR_INIT_NAVMESH]; on
    [BD_OK] the cells [result] and [result_size] receive the buffer and
    size of the first serialization, and on every other status they are
    not written. *)
Theorem bindingGenerateDetour_status e data agentHeight agentRadius
    agentMaxClimb fin :
  bindingGenerateDetour e data agentHeight agentRadius agentMaxClimb = Ret fin ->
  (status fin = BD_ERR_VERTICES <->
   DT_VERTS_PER_POLYGON < BindingBulkResult.max_verts_per_poly data) /\
  (status fin = BD_ERR_BUILD_NAVMESH <->
   BindingBulkResult.max_verts_per_poly data <= DT_VERTS_PER_POLYGON /\
   dtCreateNavMeshData_first e = None) /\
  (status fin = BD_ERR_ALLOC_NAVMESH <->
   BindingBulkResult.max_verts_per_poly data <= DT_VERTS_PER_POLYGON /\
   is_Some (dtCreateNavMeshData_first e) /\ dtAllocNavMesh_ok e = false) /\
  (status fin = BD_OK <->
   BindingBulkResult.max_verts_per_poly data <= DT_VERTS_PER_POLYGON /\
   is_Some (dtCreateNavMeshData_first e) /\ dtAllocNavMesh_ok e = true) /\
  status fin <> BD_ERR_INIT_NAVMESH /\
  (status fin = BD_OK ->
   exists navData navDataSize,
     dtCreateNavMeshData_first e = Some (navData, navDataSize) /\
     result_written fin = Some navData /\
     result_size_written fin = Some navDataSize) /\
  (status fin <> BD_OK ->
   result_written fin = None /\ result_size_written fin = None).
Proof.
  unfold bindingGenerateDetour.
  destruct (Z.ltb_spec DT_VERTS_PER_POLYGON
              (BindingBulkResult.max_verts_per_poly data)) as [Hgt|Hle].
  - intros [= <-]. cbn. repeat split; intros; try lia; try discriminate;
      try (destruct_and?; lia); try congruence.
  - destruct (BindingBulkResult.poly_mesh data) as [pm|]; [|discriminate].
    destruct (set_poly_flags _ _ _) as [flags'|]; [|discriminate].
    cbn [BindingBulkResult.with_poly_mesh BindingBulkResult.poly_mesh_detail].
    destruct (BindingBulkResult.poly_mesh_detail data) as [dm|]; [|discriminate].
    destruct (dtCreateNavMeshData_first e) as [[navData navDataSize]|];
      [destruct (dtAllocNavMesh_ok e)|]; cbn [negb]; intros [= <-]; cbn;
      repeat split; intros; try lia; try discriminate; try congruence;
      try (destruct_and?; first [lia | discriminate | congruence
                                | match goal with Hs : is_Some None |- _ =>
                                    destruct Hs; discriminate end]);
      try (by eexists); try (by eexists _, _).
Qed.

(** What a returning call leaves in the envelope: nothing new when the
    vertex check fails, else the mesh with the flags the loop has set. *)
Lemma bindingGenerateDetour_data_after e data agentHeight agentRadius
    agentMaxClimb fin :
  bindingGenerateDetour e data agentHeight agentRadius agentMaxClimb = Ret fin ->
  (DT_VERTS_PER_POLYGON < BindingBulkResult.max_verts_per_poly data /\
   data_after fin = data) \/
  exists poly_mesh poly_mesh_detail flags',
    BindingBulkResult.max_verts_per_poly data <= DT_VERTS_PER_POLYGON /\
    BindingBulkResult.poly_mesh data = Some poly_mesh /\
    BindingBulkResult.poly_mesh_detail data = Some poly_mesh_detail /\
    set_poly_flags (Z.to_nat (rcPolyMesh.npolys poly_mesh)) 0
      (rcPolyMesh.flags poly_mesh) = Some flags' /\
    data_after fin
    = BindingBulkResult.with_poly_mesh data
        (Some (rcPolyMesh.with_flags poly_mesh flags')) /\
    serializer_calls (detour_trace fin)
    = (let params :=
         make_params (data_after fin) (rcPolyMesh.with_flags poly_mesh flags')
           poly_mesh_detail agentHeight agentRadius agentMaxClimb in
       match dtCreateNavMeshData_first e with
       | Some _ => [(params, true)]
       | None => [(params, false);
                  (params, bool_decide (is_Some (dtCreateNavMeshData_second e)))]
       end) /\
    freed_buffers (detour_trace fin)
    = match dtCreateNavMeshData_first e with
      | Some (navData, _) => if dtAllocNavMesh_ok e then [] else [navData]
      | None => []
      end.
Proof.
  unfold bindingGenerateDetour.
  destruct (Z.ltb_spec DT_VERTS_PER_POLYGON
              (BindingBulkResult.max_verts_per_poly data)) as [Hgt|Hle].
  - intros [= <-]. left. split; [exact Hgt|reflexivity].
  - destruct (BindingBulkResult.poly_mesh data) as [pm|]; [|discriminate].
    destruct (set_poly_flags _ _ _) as [flags'|] eqn:Hs; [|discriminate].
    cbn [BindingBulkResult.with_poly_mesh BindingBulkResult.poly_mesh_detail].
    destruct (BindingBulkResult.poly_mesh_detail data) as [dm|]; [|discriminate].
    intros Hfin. right. exists pm, dm, flags'.
    split; [exact Hle|]. split; [reflexivity|]. split; [reflexivity|].
    split; [exact Hs|].
    destruct (dtCreateNavMeshData_first e) as [[navData navDataSize]|];
      [destruct (dtAllocNavMesh_ok e)|]; cbn [negb] in Hfin;
      injection Hfin as <-; cbn; repeat split.
Qed.

(** X9: past the vertex check, the serializer is called once when it
    succeeds and twice, with the same parameters, when it fails the first
    time; the parameters are assembled from the mesh after the flags were
    set, so the serializer sees the flag 1 on every polygon; and the only
    buffer ever released is the one of a successful serialization followed
    by a failed navmesh allocation: what a second call may return is
    neither handed out nor released. *)
Theorem bindingGenerateDetour_serializer_calls e data agentHeight agentRadius
    agentMaxClimb fin :
  BindingBulkResult.max_verts_per_poly data <= DT_VERTS_PER_POLYGON ->
  bindingGenerateDetour e data agentHeight agentRadius agentMaxClimb = Ret fin ->
  exists params npolys,
    serializer_calls (detour_trace fin)
    = match dtCreateNavMeshData_first e with
      | Some _ => [(params, true)]
      | None => [(params, false);
                 (params, bool_decide (is_Some (dtCreateNavMeshData_second e)))]
      end /\
    dt_polyCount params = npolys /\
    take (Z.to_nat npolys) (dt_polyFlags params) = replicate (Z.to_nat npolys) 1 /\
    dt_cs params = BindingBulkResult.cs data /\
    dt_ch params = BindingBulkResult.ch data /\
    dt_walkableHeight params = agentHeight /\
    dt_walkableRadius params = agentRadius /\
    dt_walkableClimb params = agentMaxClimb /\
    dt_buildBvTree params = true /\
    (dtCreateNavMeshData_first e = None ->
     freed_buffers (detour_trace fin) = [] /\ result_written fin = None).
Proof.
  intros Hmax Hfin.
  destruct (bindingGenerateDetour_data_after _ _ _ _ _ _ Hfin)
    as [[Hgt _]|(pm & dm & flags' & _ & Hpm & Hdm & Hs & Hafter & Hcalls & Hfree)];
    [lia|].
  apply set_poly_flags_returns in Hs as [Hle ->].
  eexists _, (rcPolyMesh.npolys pm). split; [exact Hcalls|].
  cbn [make_params dt_polyCount dt_polyFlags dt_cs dt_ch dt_walkableHeight
       dt_walkableRadius dt_walkableClimb dt_buildBvTree
       rcPolyMesh.with_flags rcPolyMesh.npolys rcPolyMesh.flags].
  rewrite Hafter.
  cbn [BindingBulkResult.with_poly_mesh BindingBulkResult.cs BindingBulkResult.ch].
  repeat split.
  - rewrite take_app_length' by (rewrite length_replicate; reflexivity). reflexivity.
  - match goal with Hn : dtCreateNavMeshData_first e = None |- _ =>
      rewrite Hfree, Hn end. reflexivity.
  - match goal with Hn : dtCreateNavMeshData_first e = None |- _ =>
      rename Hn into Hnone end.
    revert Hfin. unfold bindingGenerateDetour.
    destruct (Z.ltb_spec DT_VERTS_PER_POLYGON
                (BindingBulkResult.max_verts_per_poly data)); [lia|].
    rewrite Hpm, (set_poly_flags_all _ _ Hle).
    cbn [BindingBulkResult.with_poly_mesh BindingBulkResult.poly_mesh_detail].
    rewrite Hdm, Hnone. intros [= <-]. reflexivity.
Qed.

(** ** The consumers on the envelope of a bake *)

(** The envelope the pipeline returns: the copies of the configuration on
    every path, the built meshes on success, null pointers otherwise. *)
Lemma bindingRunBulk_envelope_fields e cfg flags verts nverts tris ntris r :
  fst (bindingRunBulk e cfg flags verts nverts tris ntris) = Ret r ->
  BindingBulkResult.cs r = rcConfig.cs cfg /\
  BindingBulkResult.ch r = rcConfig.ch cfg /\
  BindingBulkResult.max_verts_per_poly r = rcConfig.maxVertsPerPoly cfg /\
  (BindingBulkResult.code r = BCODE_OK ->
   BindingBulkResult.poly_mesh r = Some (built_poly_mesh e) /\
   BindingBulkResult.poly_mesh_detail r = Some (built_detail_mesh e)) /\
  (BindingBulkResult.code r <> BCODE_OK ->
   BindingBulkResult.poly_mesh r = None /\
   BindingBulkResult.poly_mesh_detail r = None).
Proof.
  run_pipeline; intros [= <-]; cbn; repeat split; intros; congruence.
Qed.

(** X10: extraction on the envelope of a bake.  On a failed bake it
    dereferences the null mesh pointer whatever the status was; on a
    successful bake whose polygon mesh is well formed it returns, when its
    three allocations succeed, the vertices and fans of the mesh
    [rcBuildPolyMesh] built. *)
Theorem extraction_after_bake e cfg flags verts nverts tris ntris r e' :
  fst (bindingRunBulk e cfg flags verts nverts tris ntris) = Ret r ->
  (BindingBulkResult.code r <> BCODE_OK ->
   bindingExtractVertsAndTriangles e' r = Fault) /\
  (BindingBulkResult.code r = BCODE_OK ->
   poly_mesh_wf (built_poly_mesh e) ->
   calloc_ret_ok e' = true -> calloc_verts_ok e' = true ->
   calloc_triangles_ok e' = true ->
   bindingExtractVertsAndTriangles e' r
   = Ret (BindingVertsAndTriangles.mk
            (rcPolyMesh.nverts (built_poly_mesh e))
            (Z.of_nat (length (spec_triangles (built_poly_mesh e) 0
                                 (Z.to_nat (rcPolyMesh.npolys (built_poly_mesh e))))))
            (spec_verts (built_poly_mesh e) 0
               (Z.to_nat (rcPolyMesh.nverts (built_poly_mesh e))))
            (spec_triangles (built_poly_mesh e) 0
               (Z.to_nat (rcPolyMesh.npolys (built_poly_mesh e)))))).
Proof.
  intros Hr.
  destruct (bindingRunBulk_envelope_fields _ _ _ _ _ _ _ _ Hr)
    as (_ & _ & _ & Hok & Hfail).
  split.
  - intros Hc. destruct (Hfail Hc) as [Hpm _].
    unfold bindingExtractVertsAndTriangles. rewrite Hpm. reflexivity.
  - intros Hc Hwf Hret Hv Ht. destruct (Hok Hc) as [Hpm _].
    by apply bindingExtractVertsAndTriangles_ok.
Qed.

(** X11: serialization on the envelope of a bake.  The vertex check comes
    first and uses the configuration's [maxVertsPerPoly]; past it, a failed
    bake makes the function dereference the null mesh pointer, and a
    successful bake (with a flags array covering the polygons) makes it
    return, after calling the serializer with these parameters, field by
    field: the arrays and counts of the two meshes the bake built (the
    flags of the polygons set to 1), the three agent arguments, the bounds
    of the polygon mesh, the cell size and height of the configuration,
    and [buildBvTree] set. *)
Theorem serialization_after_bake e cfg flags verts nverts tris ntris r
    e' agentHeight agentRadius agentMaxClimb :
  fst (bindingRunBulk e cfg flags verts nverts tris ntris) = Ret r ->
  (DT_VERTS_PER_POLYGON < rcConfig.maxVertsPerPoly cfg ->
   exists fin,
     bindingGenerateDetour e' r agentHeight agentRadius agentMaxClimb = Ret fin /\
     status fin = BD_ERR_VERTICES) /\
  (rcConfig.maxVertsPerPoly cfg <= DT_VERTS_PER_POLYGON ->
   BindingBulkResult.code r <> BCODE_OK ->
   bindingGenerateDetour e' r agentHeight agentRadius agentMaxClimb = Fault) /\
  (rcConfig.maxVertsPerPoly cfg <= DT_VERTS_PER_POLYGON ->
   BindingBulkResult.code r = BCODE_OK ->
   rcPolyMesh.npolys (built_poly_mesh e)
   <= Z.of_nat (length (rcPolyMesh.flags (built_poly_mesh e))) ->
   exists fin params ret rest,
     bindingGenerateDetour e' r agentHeight agentRadius agentMaxClimb = Ret fin /\
     serializer_calls (detour_trace fin) = (params, ret) :: rest /\
     Forall (fun call => fst call = params) rest /\
     dt_verts params = rcPolyMesh.verts (built_poly_mesh e) /\
     dt_vertCount params = rcPolyMesh.nverts (built_poly_mesh e) /\
     dt_polys params = rcPolyMesh.polys (built_poly_mesh e) /\
     dt_polyAreas params = rcPolyMesh.areas (built_poly_mesh e) /\
     dt_polyFlags params
     = replicate (Z.to_nat (rcPolyMesh.npolys (built_poly_mesh e))) 1
       ++ drop (Z.to_nat (rcPolyMesh.npolys (built_poly_mesh e)))
            (rcPolyMesh.flags (built_poly_mesh e)) /\
     dt_polyCount params = rcPolyMesh.npolys (built_poly_mesh e) /\
     dt_nvp params = rcPolyMesh.nvp (built_poly_mesh e) /\
     dt_detailMeshes params = rcPolyMeshDetail.meshes (built_detail_mesh e) /\
     dt_detailVerts params = rcPolyMeshDetail.verts (built_detail_mesh e) /\
     dt_detailVertsCount params = rcPolyMeshDetail.nverts (built_detail_mesh e) /\
     dt_detailTris params = rcPolyMeshDetail.tris (built_detail_mesh e) /\
     dt_detailTriCount params = rcPolyMeshDetail.ntris (built_detail_mesh e) /\
     dt_walkableHeight params = agentHeight /\
     dt_walkableRadius params = agentRadius /\
     dt_walkableClimb params = agentMaxClimb /\
     dt_bmin params = rcPolyMesh.bmin (built_poly_mesh e) /\
     dt_bmax params = rcPolyMesh.bmax (built_poly_mesh e) /\
     dt_cs params = rcConfig.cs cfg /\
     dt_ch params = rcConfig.ch cfg /\
     dt_buildBvTree params = true).
Proof.
  intros Hr.
  destruct (bindingRunBulk_envelope_fields _ _ _ _ _ _ _ _ Hr)
    as (Hcs & Hch & Hmax & Hok & Hfail).
  unfold bindingGenerateDetour. rewrite Hmax.
  split; [|split].
  - intros Hgt.
    destruct (Z.ltb_spec DT_VERTS_PER_POLYGON (rcConfig.maxVertsPerPoly cfg)); [|lia].
    eexists. split; reflexivity.
  - intros Hle Hc. destruct (Hfail Hc) as [Hpm _].
    destruct (Z.ltb_spec DT_VERTS_PER_POLYGON (rcConfig.maxVertsPerPoly cfg)); [lia|].
    rewrite Hpm. reflexivity.
  - intros Hle Hc Hflags. destruct (Hok Hc) as [Hpm Hdm].
    destruct (Z.ltb_spec DT_VERTS_PER_POLYGON (rcConfig.maxVertsPerPoly cfg)); [lia|].
    rewrite Hpm, (set_poly_flags_all _ _ Hflags).
    cbn [BindingBulkResult.with_poly_mesh BindingBulkResult.poly_mesh_detail].
    rewrite Hdm.
    destruct (dtCreateNavMeshData_first e') as [[navData navDataSize]|];
      [destruct (dtAllocNavMesh_ok e')|]; cbn [negb];
      (eexists _, _, _, _; split; [reflexivity|]; split; [reflexivity|]);
      (split; [repeat constructor|]);
      cbn; rewrite ?Hcs, ?Hch; repeat split.
Qed.

Lemma transform_verts_with_flags pmesh flags' n i k verts :
  transform_verts (rcPolyMesh.with_flags pmesh flags') n i k verts
  = transform_verts pmesh n i k verts.
Proof.
  revert i k verts. induction n as [|n IH]; intros i k verts; [reflexivity|].
  cbn [transform_verts rcPolyMesh.with_flags rcPolyMesh.cs rcPolyMesh.ch
       rcPolyMesh.bmin rcPolyMesh.verts].
  destruct (rcPolyMesh.bmin pmesh) as [[orig0 orig1] orig2].
  repeat (match goal with
          | |- (?x ≫= _) = (?x ≫= _) =>
              destruct x; [cbn [mbind option_bind]|reflexivity]
          end).
  apply IH.
Qed.

(** Extraction reads neither the flags nor the other fields of the
    envelope. *)
Lemma bindingExtractVertsAndTriangles_with_flags e data pmesh flags' :
  BindingBulkResult.poly_mesh data = Some pmesh ->
  bindingExtractVertsAndTriangles e
    (BindingBulkResult.with_poly_mesh data
       (Some (rcPolyMesh.with_flags pmesh flags')))
  = bindingExtractVertsAndTriangles e data.
Proof.
  intros Hpm. unfold bindingExtractVertsAndTriangles.
  cbn [BindingBulkResult.with_poly_mesh BindingBulkResult.poly_mesh]. rewrite Hpm.
  unfold sizing_pass, vertex_pass, emission_pass.
  rewrite transform_verts_with_flags. reflexivity.
Qed.

(** X12: the two consumers can be run in either order: the flags
    [bindingGenerateDetour] writes into the shared polygon mesh do not
    change what [bindingExtractVertsAndTriangles] returns. *)
Theorem extraction_unchanged_by_serialization e data agentHeight agentRadius
    agentMaxClimb fin e' :
  bindingGenerateDetour e data agentHeight agentRadius agentMaxClimb = Ret fin ->
  bindingExtractVertsAndTriangles e' (data_after fin)
  = bindingExtractVertsAndTriangles e' data.
Proof.
  intros Hfin.
  destruct (bindingGenerateDetour_data_after _ _ _ _ _ _ Hfin)
    as [[_ ->]|(pm & dm & flags' & _ & Hpm & _ & _ & -> & _)]; [reflexivity|].
  by apply bindingExtractVertsAndTriangles_with_flags.
Qed.

(** ** Further properties of bindingExtractVertsAndTriangles *)

Lemma spec_fan_from_Forall (P : Z -> Prop) p0 prev slots :
  P p0 -> P prev -> Forall P slots -> Forall P (spec_fan_from p0 prev slots).
Proof.
  intros H0' Hprev Hs. revert prev Hprev.
  induction Hs as [|v slots Hv Hs IH]; intros prev Hprev; cbn [spec_fan_from].
  - constructor.
  - repeat constructor; try assumption. by apply IH.
Qed.

(** The fans of polygons that have three valid slots or more. *)
Lemma spec_fans_in_range pmesh (l : list Z) :
  polygons_in_range pmesh ->
  Forall (fun i => 0 <= i < rcPolyMesh.npolys pmesh) l ->
  Forall (fun v => 0 <= v < rcPolyMesh.nverts pmesh)
    (flat_map (fun i => spec_fan (polygon pmesh i)) l) /\
  length (flat_map (fun i => spec_fan (polygon pmesh i)) l)
  = (3 * list_sum (map (fun i => length (valid_slots (polygon pmesh i)) - 2) l))%nat.
Proof.
  intros Hin Hl. induction Hl as [|i l Hi Hl [IHr IHn]].
  - split; [constructor|reflexivity].
  - destruct (Hin i Hi) as [Hk Hv].
    destruct (valid_slots_three _ Hk) as (p0 & p1 & rest & Hp & Hvs).
    cbn [flat_map map list_sum fold_right].
    fold (list_sum (map (fun i => (length (valid_slots (polygon pmesh i)) - 2)%nat) l)).
    rewrite Hvs in *. rewrite Hp. cbn [spec_fan length].
    apply Forall_cons in Hv as [Hp0 Hv]. apply Forall_cons in Hv as [Hp1 Hv].
    split.
    + apply Forall_app. split; [|exact IHr]. by apply spec_fan_from_Forall.
    + rewrite length_app, spec_fan_from_length, IHn. lia.
Qed.

(** X13: on a mesh as Recast builds it (every polygon has three valid
    slots or more, each an index of a vertex), every entry of the index
    buffer returned is the index of a vertex of the vertex buffer, and the
    number of entries is three times the sum over the polygons of their
    number of valid slots minus two. *)
Theorem triangle_indices_in_range e bbr pmesh :
  BindingBulkResult.poly_mesh bbr = Some pmesh ->
  poly_mesh_wf pmesh ->
  polygons_in_range pmesh ->
  calloc_ret_ok e = true -> calloc_verts_ok e = true ->
  calloc_triangles_ok e = true ->
  exists em,
    bindingExtractVertsAndTriangles e bbr = Ret em /\
    Forall (fun v => 0 <= v < BindingVertsAndTriangles.nverts em)
      (BindingVertsAndTriangles.triangles em) /\
    Z.of_nat (length (BindingVertsAndTriangles.verts em))
    = 4 * BindingVertsAndTriangles.nverts em /\
    BindingVertsAndTriangles.ntris em
    = 3 * Z.of_nat
            (list_sum
               (map (fun i => (length (valid_slots (polygon pmesh i)) - 2)%nat)
                  (seqZ 0 (rcPolyMesh.npolys pmesh)))).
Proof.
  intros Hpm Hwf Hin Hr Hv Ht.
  eexists. split; [by apply bindingExtractVertsAndTriangles_ok|].
  cbn [BindingVertsAndTriangles.nverts BindingVertsAndTriangles.triangles
       BindingVertsAndTriangles.verts BindingVertsAndTriangles.ntris].
  destruct Hwf as (Hnv & _ & Hnp & _).
  assert (Hl : Forall (fun i => 0 <= i < rcPolyMesh.npolys pmesh)
                 (seqZ 0 (Z.of_nat (Z.to_nat (rcPolyMesh.npolys pmesh))))).
  { apply Forall_forall. intros i Hi. apply elem_of_seqZ in Hi. lia. }
  destruct (spec_fans_in_range pmesh _ Hin Hl) as [Hrange Hlen].
  unfold spec_triangles. split; [exact Hrange|]. split.
  - assert (Hvl : forall n first, length (spec_verts pmesh first n) = (4 * n)%nat).
    { induction n as [|n IH]; intros first; unfold spec_verts.
      - rewrite seqZ_nil by lia. reflexivity.
      - rewrite seqZ_cons by lia. cbn [flat_map].
        replace (Z.pred (Z.of_nat (S n))) with (Z.of_nat n) by lia.
        rewrite length_app, world_vertex_length.
        change (flat_map _ (seqZ (Z.succ first) (Z.of_nat n)))
          with (spec_verts pmesh (Z.succ first) n).
        rewrite IH. lia. }
    rewrite Hvl. lia.
  - rewrite Hlen. rewrite Z2Nat.id by lia. lia.
Qed.

(** X14: the heap of an extraction.  The function with its heap returns
    what the function returns; when it returns [NULL] every block it
    allocated has been released, once; when it returns a mesh the three
    blocks are held and none was released. *)
Theorem extraction_heap_balance e bbr :
  eh_outcome (bindingExtractVertsAndTriangles_heap e bbr)
  = bindingExtractVertsAndTriangles e bbr /\
  (bindingExtractVertsAndTriangles e bbr = Null ->
   forall b,
     mem_allocs b (eh_trace (bindingExtractVertsAndTriangles_heap e bbr))
     = mem_frees b (eh_trace (bindingExtractVertsAndTriangles_heap e bbr)) /\
     (mem_frees b (eh_trace (bindingExtractVertsAndTriangles_heap e bbr)) <= 1)%nat) /\
  (forall em,
   bindingExtractVertsAndTriangles e bbr = Ret em ->
   eh_ret (bindingExtractVertsAndTriangles_heap e bbr)
   = Some {| verts_set := true; triangles_set := true |} /\
   forall b,
     mem_allocs b (eh_trace (bindingExtractVertsAndTriangles_heap e bbr)) = 1%nat /\
     mem_frees b (eh_trace (bindingExtractVertsAndTriangles_heap e bbr)) = 0%nat).
Proof.
  unfold bindingExtractVertsAndTriangles_heap, bindingExtractVertsAndTriangles.
  destruct (BindingBulkResult.poly_mesh bbr) as [pmesh|];
    [|cbn; repeat split; intros; discriminate].
  destruct (calloc_ret_ok e), (calloc_verts_ok e); cbn [negb];
    try (cbn; repeat split; intros; try discriminate; destruct b; cbn; lia).
  destruct (sizing_pass pmesh) as [ntris|];
    [|cbn; repeat split; intros; discriminate].
  destruct (calloc_triangles_ok e); cbn [negb];
    try (cbn; repeat split; intros; try discriminate; destruct b; cbn; lia).
  destruct (vertex_pass _ _) as [[k verts]|];
    [|cbn; repeat split; intros; discriminate].
  destruct (emission_pass _ _) as [[k' trisArray]|];
    [|cbn; repeat split; intros; discriminate].
  cbn; repeat split; intros; try discriminate; destruct b; reflexivity.
Qed.

(** X15: [freeVertsAndTriangles] on the structure an extraction returned
    releases the two buffers and the structure: after it each of the three
    blocks has been allocated once and released once. *)
Theorem freeVertsAndTriangles_after_extraction e bbr em :
  bindingExtractVertsAndTriangles e bbr = Ret em ->
  exists released,
    freeVertsAndTriangles (eh_ret (bindingExtractVertsAndTriangles_heap e bbr))
    = Ret released /\
    forall b,
      mem_allocs b (eh_trace (bindingExtractVertsAndTriangles_heap e bbr) ++ released)
      = 1%nat /\
      mem_frees b (eh_trace (bindingExtractVertsAndTriangles_heap e bbr) ++ released)
      = 1%nat.
Proof.
  unfold bindingExtractVertsAndTriangles_heap, bindingExtractVertsAndTriangles.
  destruct (BindingBulkResult.poly_mesh bbr) as [pmesh|]; [|discriminate].
  destruct (calloc_ret_ok e); [|discriminate].
  destruct (calloc_verts_ok e); [|discriminate]. cbn [negb].
  destruct (sizing_pass pmesh) as [ntris|]; [|discriminate].
  destruct (calloc_triangles_ok e); [|discriminate]. cbn [negb].
  destruct (vertex_pass _ _) as [[k verts]|]; [|discriminate].
  destruct (emission_pass _ _) as [[k' trisArray]|]; [|discriminate].
  intros _. eexists. split; [reflexivity|]. intros b. destruct b; split; reflexivity.
Qed.

(** X16: on a well-formed mesh the three passes never leave the arrays, so
    the only failures are those of [calloc]: the function dereferences a
    null pointer when the unchecked allocation of the structure fails,
    returns [NULL] when the allocation of a buffer fails, and returns the
    mesh otherwise. *)
Theorem extraction_outcome_on_a_well_formed_mesh e bbr pmesh :
  BindingBulkResult.poly_mesh bbr = Some pmesh ->
  poly_mesh_wf pmesh ->
  bindingExtractVertsAndTriangles e bbr
  = if calloc_ret_ok e then
      if calloc_verts_ok e && calloc_triangles_ok e then
        Ret (BindingVertsAndTriangles.mk (rcPolyMesh.nverts pmesh)
               (Z.of_nat (length (spec_triangles pmesh 0
                                    (Z.to_nat (rcPolyMesh.npolys pmesh)))))
               (spec_verts pmesh 0 (Z.to_nat (rcPolyMesh.nverts pmesh)))
               (spec_triangles pmesh 0 (Z.to_nat (rcPolyMesh.npolys pmesh))))
      else Null
    else Fault.
Proof.
  intros Hpm Hwf.
  destruct (calloc_ret_ok e) eqn:Hr, (calloc_verts_ok e) eqn:Hv,
    (calloc_triangles_ok e) eqn:Ht; cbn [andb];
    try (by apply bindingExtractVertsAndTriangles_ok);
    unfold bindingExtractVertsAndTriangles; rewrite Hpm, Hr, ?Hv; cbn [negb];
    try reflexivity.
  destruct (sizing_pass_total pmesh Hwf) as [ntris ->]. rewrite Ht. reflexivity.
Qed.

End Bridge.

(** ** The statements on the sample data

    The hypotheses of the theorems above hold on the sample data, with
    rational arithmetic for the floats and the constants of the headers;
    and the two places where the pipeline departs from a uniform
    contract. *)

Lemma bindingRunBulk_envelope_sample :
  exists r,
    fst (bindingRunBulk (F := Q) env_all_ok sample_config 8 [] 0 [] 0) = Ret r /\
    envelope_consistent r /\
    ~ (BindingBulkResult.code r = BCODE_OK /\
       BindingBulkResult.poly_mesh r = None).
Proof.
  apply (bindingRunBulk_envelope (F := Q) env_all_ok sample_config 8 [] 0 [] 0);
    reflexivity.
Defined.

(** When the heightfield cannot be allocated the function returns [NULL]:
    no envelope, hence no status. *)
Lemma bindingRunBulk_no_envelope :
  fst (bindingRunBulk (F := Q) env_no_heightfield sample_config 8 [] 0 [] 0) = Null /\
  ~ exists r,
      fst (bindingRunBulk (F := Q) env_no_heightfield sample_config 8 [] 0 [] 0)
      = Ret r /\
      envelope_consistent r.
Proof.
  split; [reflexivity|]. intros (r & Hr & _). discriminate Hr.
Qed.

Lemma partition_strategy_selected_sample :
  (Z.land 8 PARTITION_MASK = PARTITION_LAYER ->
   partition_calls (snd (bindingRunBulk (F := Q) env_all_ok sample_config 8 [] 0 [] 0))
   = [Call rcBuildLayerRegions (call_ok (F := Q) env_all_ok rcBuildLayerRegions)]) /\
  (Z.land 8 PARTITION_MASK = PARTITION_MONOTONE ->
   partition_calls (snd (bindingRunBulk (F := Q) env_all_ok sample_config 8 [] 0 [] 0))
   = [Call rcBuildRegionsMonotone
        (call_ok (F := Q) env_all_ok rcBuildRegionsMonotone)]) /\
  (Z.land 8 PARTITION_MASK = PARTITION_WATERSHED ->
   partition_calls (snd (bindingRunBulk (F := Q) env_all_ok sample_config 8 [] 0 [] 0))
   = if call_ok (F := Q) env_all_ok rcBuildDistanceField
     then [Call rcBuildDistanceField true;
           Call rcBuildRegions (call_ok (F := Q) env_all_ok rcBuildRegions)]
     else [Call rcBuildDistanceField false]) /\
  (forall r,
   fst (bindingRunBulk (F := Q) env_all_ok sample_config 8 [] 0 [] 0) = Ret r ->
   (BindingBulkResult.code r = BCODE_ERR_BUILD_DISTANCE_FIELD <->
    In (Call rcBuildDistanceField false)
       (snd (bindingRunBulk (F := Q) env_all_ok sample_config 8 [] 0 [] 0)))).
Proof.
  apply (partition_strategy_selected (F := Q) env_all_ok sample_config 8 [] 0 [] 0).
  apply In_occurs. vm_compute. discriminate.
Defined.

(** With both bits of the partition field set, the pipeline reaches the
    partitioning step, runs none of the three strategies, and goes on to
    return [BCODE_OK]. *)
Lemma partition_both_bits_no_strategy :
  reaches_partition
    (snd (bindingRunBulk (F := Q) env_all_ok sample_config 24 [] 0 [] 0)) /\
  Z.land 24 PARTITION_MASK = 24 /\
  partition_calls
    (snd (bindingRunBulk (F := Q) env_all_ok sample_config 24 [] 0 [] 0)) = [] /\
  strategies_run
    (snd (bindingRunBulk (F := Q) env_all_ok sample_config 24 [] 0 [] 0)) = [] /\
  exists r,
    fst (bindingRunBulk (F := Q) env_all_ok sample_config 24 [] 0 [] 0) = Ret r /\
    BindingBulkResult.code r = BCODE_OK.
Proof.
  split; [apply In_occurs; vm_compute; discriminate|].
  split; [reflexivity|]. split; [reflexivity|]. split; [reflexivity|].
  eexists. split; reflexivity.
Qed.

Lemma bindingRunBulk_staged_release_sample :
  (exists rest,
     snd (bindingRunBulk (F := Q) env_all_ok sample_config 8 [] 0 [] 0)
     = trace_to_erosion 8 ++ rest) /\
  (exists r,
     fst (bindingRunBulk (F := Q) env_all_ok sample_config 8 [] 0 [] 0) = Ret r /\
     Forall (fun s => released s
         (snd (bindingRunBulk (F := Q) env_all_ok sample_config 8 [] 0 [] 0)))
       [Res_Heightfield; Res_CompactHeightfield; Res_ContourSet] /\
     Forall (fun s => held s
         (snd (bindingRunBulk (F := Q) env_all_ok sample_config 8 [] 0 [] 0)))
       [Res_PolyMesh; Res_PolyMeshDetail]).
Proof.
  destruct (bindingRunBulk_staged_release (F := Q) env_all_ok sample_config 8 [] 0 [] 0)
    as [Hhf Hok].
  split.
  - apply Hhf. apply In_occurs. vm_compute. discriminate.
  - eexists. split; [reflexivity|].
    destruct (Hok _ eq_refl eq_refl) as (_ & Hrel & Hheld & _). split; assumption.
Defined.

Lemma bindingGenerateDetour_too_many_verts_sample :
  bindingGenerateDetour (F := Q) detour_alloc_fails sample_result_7 2%Q (1 # 2)%Q 1%Q
  = Ret {| status := BD_ERR_VERTICES;
           data_after := sample_result_7;
           result_written := None;
           result_size_written := None;
           detour_trace := [] |}.
Proof.
  apply (bindingGenerateDetour_too_many_verts (F := Q)). reflexivity.
Defined.

Lemma bindingGenerateDetour_alloc_navmesh_fails_sample :
  exists fin params,
    bindingGenerateDetour (F := Q) detour_alloc_fails sample_result 2%Q (1 # 2)%Q 1%Q
    = Ret fin /\
    status fin = BD_ERR_ALLOC_NAVMESH /\
    result_written fin = None /\
    result_size_written fin = None /\
    detour_trace fin
    = [DtCreateNavMeshData params true; DtAllocNavMesh false;
       DtFree [68; 78; 65; 86]] /\
    data_after fin
    = BindingBulkResult.with_poly_mesh sample_result
        (Some (rcPolyMesh.with_flags sample_mesh [1; 1])).
Proof.
  apply (bindingGenerateDetour_alloc_navmesh_fails (F := Q) detour_alloc_fails
           sample_result sample_mesh sample_detail 2%Q (1 # 2)%Q 1%Q [68; 78; 65; 86] 4).
  - cbn. lia.
  - reflexivity.
  - reflexivity.
  - cbn. lia.
  - reflexivity.
  - reflexivity.
Defined.

Lemma sample_mesh_wf : poly_mesh_wf (F := Q) sample_mesh.
Proof. unfold poly_mesh_wf. cbn. lia. Qed.

Lemma fan_triangulation_sample :
  exists em fan,
    bindingExtractVertsAndTriangles (F := Q) extract_all_ok sample_result = Ret em /\
    BindingVertsAndTriangles.triangles em
    = spec_triangles (F := Q) sample_mesh 0 (Z.to_nat 0)
      ++ fan
      ++ spec_triangles (F := Q) sample_mesh (0 + 1) (Z.to_nat (2 - 0 - 1)) /\
    length fan = (3 * (length [0; 1; 2; 3] - 2))%nat /\
    forall j, (2 <= j < length [0; 1; 2; 3])%nat ->
      fan !! (3 * (j - 2))%nat = [0; 1; 2; 3] !! 0%nat /\
      fan !! (3 * (j - 2) + 1)%nat = [0; 1; 2; 3] !! (j - 1)%nat /\
      fan !! (3 * (j - 2) + 2)%nat = [0; 1; 2; 3] !! j.
Proof.
  apply (fan_triangulation (F := Q) extract_all_ok sample_result sample_mesh 0
           [0; 1; 2; 3]).
  - reflexivity.
  - exact sample_mesh_wf.
  - reflexivity.
  - reflexivity.
  - reflexivity.
  - cbn. lia.
  - reflexivity.
  - cbn. lia.
Defined.

Lemma sizing_matches_emission_sample :
  sizing_pass (F := Q) sample_mesh = Some 9 /\
  emission_pass (F := Q) sample_mesh (calloc_array 9 0)
  = Some (9, [0; 1; 2; 0; 2; 3; 0; 3; 4]) /\
  Z.of_nat (length [0; 1; 2; 0; 2; 3; 0; 3; 4]) = 9 /\
  [0; 1; 2; 0; 2; 3; 0; 3; 4] = spec_triangles (F := Q) sample_mesh 0 (Z.to_nat 2).
Proof.
  exact (proj1 (sizing_matches_emission (F := Q) extract_all_ok sample_result
                  sample_mesh eq_refl)
           sample_extracted eq_refl).
Defined.

Lemma vertex_world_position_sample :
  exists em,
    bindingExtractVertsAndTriangles (F := Q) extract_all_ok sample_result = Ret em /\
    BindingVertsAndTriangles.nverts em = 5 /\
    Z.of_nat (length (BindingVertsAndTriangles.verts em)) = 4 * 5 /\
    load (BindingVertsAndTriangles.verts em) (4 * 4 + 0)
    = Some (inject_Z (-5) + inject_Z 0 * inject_Z 1)%Q /\
    load (BindingVertsAndTriangles.verts em) (4 * 4 + 1)
    = Some (inject_Z 0 + inject_Z (2 + 1) * inject_Z 2 + (1 # 10))%Q /\
    load (BindingVertsAndTriangles.verts em) (4 * 4 + 2)
    = Some (inject_Z (-5) + inject_Z 20 * inject_Z 1)%Q /\
    load (BindingVertsAndTriangles.verts em) (4 * 4 + 3) = Some (inject_Z 0).
Proof.
  exact (vertex_world_position (F := Q) extract_all_ok sample_result sample_mesh
           4 0 2 20 (inject_Z (-5)) (inject_Z 0) (inject_Z (-5))
           eq_refl sample_mesh_wf eq_refl eq_refl eq_refl
           (conj (proj1 (Z.leb_le 0 4) eq_refl) (proj1 (Z.ltb_lt 4 5) eq_refl))
           eq_refl eq_refl eq_refl eq_refl).
Defined.

Lemma ntris_counts_index_entries_sample :
  exists pmesh,
    BindingBulkResult.poly_mesh (F := Q) sample_result = Some pmesh /\
    BindingVertsAndTriangles.triangles (F := Q) sample_extracted
    = spec_triangles pmesh 0 (Z.to_nat (rcPolyMesh.npolys pmesh)) /\
    BindingVertsAndTriangles.ntris (F := Q) sample_extracted
    = 3 * Z.of_nat (spec_triangle_count pmesh 0
                      (Z.to_nat (rcPolyMesh.npolys pmesh))) /\
    Z.of_nat (length (BindingVertsAndTriangles.triangles (F := Q) sample_extracted))
    = BindingVertsAndTriangles.ntris (F := Q) sample_extracted.
Proof.
  apply (ntris_counts_index_entries (F := Q) extract_all_ok sample_result
           sample_extracted).
  reflexivity.
Defined.

(** ** The model at work on the sample data *)

Example bake_watershed_trace :
  snd (bindingRunBulk (F := Q) env_all_ok sample_config
         (PARTITION_WATERSHED + FILTER_LEDGE_SPANS) [] 0 [] 0)
  = [Alloc Res_Heightfield true; Alloc Res_result true;
     Call rcCreateHeightfield true; Alloc Res_tri_areas true;
     Call rcMarkWalkableTriangles true; Call rcRasterizeTriangles true;
     Call rcFilterLedgeSpans true;
     Alloc Res_CompactHeightfield true; Call rcBuildCompactHeightfield true;
     Free Res_Heightfield; Call rcErodeWalkableArea true;
     Call rcBuildDistanceField true; Call rcBuildRegions true;
     Alloc Res_ContourSet true; Call rcBuildContours true;
     Alloc Res_PolyMesh true; Call rcBuildPolyMesh true;
     Alloc Res_PolyMeshDetail true; Call rcBuildPolyMeshDetail true;
     Free Res_CompactHeightfield; Free Res_ContourSet].
Proof. reflexivity. Qed.

Example bake_distance_field_fails :
  bindingRunBulk (F := Q) env_distance_field_fails sample_config
    PARTITION_WATERSHED [] 0 [] 0
  = (Ret (BindingBulkResult.mk BCODE_ERR_BUILD_DISTANCE_FIELD 1%Q 2%Q None None 6),
     [Alloc Res_Heightfield true; Alloc Res_result true;
      Call rcCreateHeightfield true; Alloc Res_tri_areas true;
      Call rcMarkWalkableTriangles true; Call rcRasterizeTriangles true;
      Alloc Res_CompactHeightfield true; Call rcBuildCompactHeightfield true;
      Free Res_Heightfield; Call rcErodeWalkableArea true;
      Call rcBuildDistanceField false; Free Res_CompactHeightfield]).
Proof. reflexivity. Qed.

Example extract_sample :
  bindingExtractVertsAndTriangles (F := Q) extract_all_ok sample_result
  = Ret sample_extracted.
Proof. vm_compute. reflexivity. Qed.

Example extract_sample_triangles :
  spec_triangles (F := Q) sample_mesh 0 2 = [0; 1; 2; 0; 2; 3; 0; 3; 4] /\
  spec_triangle_count (F := Q) sample_mesh 0 2 = 3%nat.
Proof. split; reflexivity. Qed.

Example extract_without_mesh :
  bindingExtractVertsAndTriangles (F := Q) extract_all_ok
    (BindingBulkResult.mk BCODE_ERR_RASTERIZE 1%Q 2%Q None None 6)
  = Fault.
Proof. reflexivity. Qed.

(** ** The further statements on the sample data *)

Lemma status_names_failed_step_sample :
  match List.filter is_failure
          (snd (bindingRunBulk (F := Q) env_rasterize_fails sample_config 8 [] 0 [] 0))
  with
  | [] => BindingBulkResult.code (F := Q) failed_result = BCODE_OK
  | [ev] => status_of_failure ev = Some (BindingBulkResult.code (F := Q) failed_result)
  | _ => False
  end.
Proof.
  exact (status_names_failed_step (F := Q) env_rasterize_fails sample_config 8
           [] 0 [] 0 failed_result eq_refl).
Defined.

Lemma only_releases_follow_a_failure_sample :
  Forall (fun ev' => exists s, ev' = Free s) [Free Res_Heightfield].
Proof.
  exact (only_releases_follow_a_failure (F := Q) env_rasterize_fails sample_config 8
           [] 0 [] 0
           [Alloc Res_Heightfield true; Alloc Res_result true;
            Call rcCreateHeightfield true; Alloc Res_tri_areas true;
            Call rcMarkWalkableTriangles true]
           (Call rcRasterizeTriangles false) [Free Res_Heightfield]
           eq_refl eq_refl).
Defined.

Lemma tri_areas_held_at_return_sample :
  held Res_tri_areas
    (snd (bindingRunBulk (F := Q) env_all_ok sample_config 8 [] 0 [] 0)).
Proof.
  apply (tri_areas_held_at_return (F := Q) env_all_ok sample_config 8 [] 0 [] 0).
  apply In_occurs. vm_compute. discriminate.
Defined.

Lemma filters_follow_the_flag_bits_sample :
  filter_events (snd (bindingRunBulk (F := Q) env_all_ok sample_config 13 [] 0 [] 0))
  = (if Z.testbit 13 0 then [Call rcFilterLowHangingWalkableObstacles true] else [])
    ++ (if Z.testbit 13 1 then [Call rcFilterLedgeSpans true] else [])
    ++ (if Z.testbit 13 2 then [Call rcFilterWalkableLowHeightSpans true] else []).
Proof.
  apply (filters_follow_the_flag_bits (F := Q) env_all_ok sample_config 13 [] 0 [] 0).
  apply In_occurs. vm_compute. discriminate.
Defined.

Lemma empty_mesh_is_diagnosed_sample :
  In Printf (snd (bindingRunBulk (F := Q) env_empty_mesh sample_config 0 [] 0 [] 0)) <->
  BindingBulkResult.code
    (BindingBulkResult.mk (F := Q) BCODE_OK 1%Q 2%Q (Some empty_mesh)
       (Some (rcPolyMeshDetail.mk [] [] [] 0 0 0)) 6) = BCODE_OK /\
  rcPolyMesh.nverts (F := Q) (built_poly_mesh env_empty_mesh) = 0.
Proof.
  exact (empty_mesh_is_diagnosed (F := Q) env_empty_mesh sample_config 0 [] 0 [] 0
           _ eq_refl).
Defined.

Lemma bindingRelease_after_bake_sample :
  exists t,
    bindingRelease (F := Q) (Some failed_result) = Ret t /\
    Forall (fun s =>
      released s
        (snd (bindingRunBulk (F := Q) env_rasterize_fails sample_config 8 [] 0 [] 0)
         ++ t))
      (stage_resources ++ [Res_result]) /\
    allocs Res_result
      (snd (bindingRunBulk (F := Q) env_rasterize_fails sample_config 8 [] 0 [] 0))
    = 1%nat.
Proof.
  exact (bindingRelease_after_bake (F := Q) env_rasterize_fails sample_config 8
           [] 0 [] 0 failed_result eq_refl).
Defined.

Lemma bindingGenerateDetour_sets_every_flag_sample :
  exists poly_mesh flags',
    BindingBulkResult.poly_mesh (F := Q) sample_result = Some poly_mesh /\
    data_after (F := Q) detour_ok_final
    = BindingBulkResult.with_poly_mesh sample_result
        (Some (rcPolyMesh.with_flags poly_mesh flags')) /\
    length flags' = length (rcPolyMesh.flags poly_mesh) /\
    (forall i, 0 <= i < rcPolyMesh.npolys poly_mesh -> load flags' i = Some 1) /\
    (forall i, rcPolyMesh.npolys poly_mesh <= i ->
       load flags' i = load (rcPolyMesh.flags poly_mesh) i).
Proof.
  exact (bindingGenerateDetour_sets_every_flag (F := Q) detour_all_ok sample_result
           (inject_Z 2) (inject_Z 1) (inject_Z 1) detour_ok_final
           (proj1 (Z.leb_le 6 6) eq_refl) eq_refl).
Defined.

Lemma bindingGenerateDetour_status_sample :
  (status (F := Q) detour_retry_final = BD_ERR_VERTICES <->
   DT_VERTS_PER_POLYGON < BindingBulkResult.max_verts_per_poly (F := Q) sample_result) /\
  (status (F := Q) detour_retry_final = BD_ERR_BUILD_NAVMESH <->
   BindingBulkResult.max_verts_per_poly (F := Q) sample_result <= DT_VERTS_PER_POLYGON /\
   dtCreateNavMeshData_first detour_retry = None) /\
  (status (F := Q) detour_retry_final = BD_ERR_ALLOC_NAVMESH <->
   BindingBulkResult.max_verts_per_poly (F := Q) sample_result <= DT_VERTS_PER_POLYGON /\
   is_Some (dtCreateNavMeshData_first detour_retry) /\
   dtAllocNavMesh_ok detour_retry = false) /\
  (status (F := Q) detour_retry_final = BD_OK <->
   BindingBulkResult.max_verts_per_poly (F := Q) sample_result <= DT_VERTS_PER_POLYGON /\
   is_Some (dtCreateNavMeshData_first detour_retry) /\
   dtAllocNavMesh_ok detour_retry = true) /\
  status (F := Q) detour_retry_final <> BD_ERR_INIT_NAVMESH /\
  (status (F := Q) detour_retry_final = BD_OK ->
   exists navData navDataSize,
     dtCreateNavMeshData_first detour_retry = Some (navData, navDataSize) /\
     result_written (F := Q) detour_retry_final = Some navData /\
     result_size_written (F := Q) detour_retry_final = Some navDataSize) /\
  (status (F := Q) detour_retry_final <> BD_OK ->
   result_written (F := Q) detour_retry_final = None /\
   result_size_written (F := Q) detour_retry_final = None).
Proof.
  exact (bindingGenerateDetour_status (F := Q) detour_retry sample_result
           (inject_Z 2) (inject_Z 1) (inject_Z 1) detour_retry_final eq_refl).
Defined.

Lemma bindingGenerateDetour_serializer_calls_sample :
  exists params npolys,
    serializer_calls (detour_trace (F := Q) detour_retry_final)
    = match dtCreateNavMeshData_first detour_retry with
      | Some _ => [(params, true)]
      | None => [(params, false);
                 (params, bool_decide (is_Some (dtCreateNavMeshData_second detour_retry)))]
      end /\
    dt_polyCount params = npolys /\
    take (Z.to_nat npolys) (dt_polyFlags params) = replicate (Z.to_nat npolys) 1 /\
    dt_cs params = BindingBulkResult.cs (F := Q) sample_result /\
    dt_ch params = BindingBulkResult.ch (F := Q) sample_result /\
    dt_walkableHeight params = inject_Z 2 /\
    dt_walkableRadius params = inject_Z 1 /\
    dt_walkableClimb params = inject_Z 1 /\
    dt_buildBvTree params = true /\
    (dtCreateNavMeshData_first detour_retry = None ->
     freed_buffers (detour_trace (F := Q) detour_retry_final) = [] /\
     result_written (F := Q) detour_retry_final = None).
Proof.
  exact (bindingGenerateDetour_serializer_calls (F := Q) detour_retry sample_result
           (inject_Z 2) (inject_Z 1) (inject_Z 1) detour_retry_final
           (proj1 (Z.leb_le 6 6) eq_refl) eq_refl).
Defined.

Lemma extraction_after_bake_sample :
  (BindingBulkResult.code (F := Q) failed_result <> BCODE_OK ->
   bindingExtractVertsAndTriangles extract_all_ok failed_result = Fault) /\
  (BindingBulkResult.code (F := Q) failed_result = BCODE_OK ->
   poly_mesh_wf (F := Q) (built_poly_mesh env_rasterize_fails) ->
   calloc_ret_ok extract_all_ok = true -> calloc_verts_ok extract_all_ok = true ->
   calloc_triangles_ok extract_all_ok = true ->
   bindingExtractVertsAndTriangles extract_all_ok failed_result
   = Ret (BindingVertsAndTriangles.mk
            (rcPolyMesh.nverts (F := Q) (built_poly_mesh env_rasterize_fails))
            (Z.of_nat (length (spec_triangles (F := Q)
                                 (built_poly_mesh env_rasterize_fails) 0
                                 (Z.to_nat (rcPolyMesh.npolys (F := Q)
                                              (built_poly_mesh env_rasterize_fails))))))
            (spec_verts (built_poly_mesh env_rasterize_fails) 0
               (Z.to_nat (rcPolyMesh.nverts (F := Q)
                            (built_poly_mesh env_rasterize_fails))))
            (spec_triangles (built_poly_mesh env_rasterize_fails) 0
               (Z.to_nat (rcPolyMesh.npolys (F := Q)
                            (built_poly_mesh env_rasterize_fails)))))).
Proof.
  exact (extraction_after_bake (F := Q) env_rasterize_fails sample_config 8
           [] 0 [] 0 failed_result extract_all_ok eq_refl).
Defined.

Lemma serialization_after_bake_sample :
  exists fin params ret rest,
    bindingGenerateDetour (F := Q) detour_retry sample_result
      (inject_Z 2) (inject_Z 1) (inject_Z 1) = Ret fin /\
    serializer_calls (detour_trace fin) = (params, ret) :: rest /\
    Forall (fun call => fst call = params) rest /\
    dt_verts params = rcPolyMesh.verts (F := Q) (built_poly_mesh env_all_ok) /\
    dt_vertCount params = rcPolyMesh.nverts (F := Q) (built_poly_mesh env_all_ok) /\
    dt_polys params = rcPolyMesh.polys (F := Q) (built_poly_mesh env_all_ok) /\
    dt_polyAreas params = rcPolyMesh.areas (F := Q) (built_poly_mesh env_all_ok) /\
    dt_polyFlags params
    = replicate (Z.to_nat (rcPolyMesh.npolys (F := Q) (built_poly_mesh env_all_ok))) 1
      ++ drop (Z.to_nat (rcPolyMesh.npolys (F := Q) (built_poly_mesh env_all_ok)))
           (rcPolyMesh.flags (F := Q) (built_poly_mesh env_all_ok)) /\
    dt_polyCount params = rcPolyMesh.npolys (F := Q) (built_poly_mesh env_all_ok) /\
    dt_nvp params = rcPolyMesh.nvp (F := Q) (built_poly_mesh env_all_ok) /\
    dt_detailMeshes params
    = rcPolyMeshDetail.meshes (F := Q) (built_detail_mesh env_all_ok) /\
    dt_detailVerts params
    = rcPolyMeshDetail.verts (F := Q) (built_detail_mesh env_all_ok) /\
    dt_detailVertsCount params
    = rcPolyMeshDetail.nverts (F := Q) (built_detail_mesh env_all_ok) /\
    dt_detailTris params
    = rcPolyMeshDetail.tris (F := Q) (built_detail_mesh env_all_ok) /\
    dt_detailTriCount params
    = rcPolyMeshDetail.ntris (F := Q) (built_detail_mesh env_all_ok) /\
    dt_walkableHeight params = inject_Z 2 /\
    dt_walkableRadius params = inject_Z 1 /\
    dt_walkableClimb params = inject_Z 1 /\
    dt_bmin params = rcPolyMesh.bmin (F := Q) (built_poly_mesh env_all_ok) /\
    dt_bmax params = rcPolyMesh.bmax (F := Q) (built_poly_mesh env_all_ok) /\
    dt_cs params = rcConfig.cs (F := Q) sample_config /\
    dt_ch params = rcConfig.ch (F := Q) sample_config /\
    dt_buildBvTree params = true.
Proof.
  exact (proj2 (proj2
           (serialization_after_bake (F := Q) env_all_ok sample_config 8 [] 0 [] 0
              sample_result detour_retry (inject_Z 2) (inject_Z 1) (inject_Z 1)
              eq_refl))
           (proj1 (Z.leb_le 6 6) eq_refl) eq_refl (proj1 (Z.leb_le 2 2) eq_refl)).
Defined.

Lemma extraction_unchanged_by_serialization_sample :
  bindingExtractVertsAndTriangles (F := Q) extract_all_ok
    (data_after (F := Q) detour_ok_final)
  = bindingExtractVertsAndTriangles extract_all_ok sample_result.
Proof.
  exact (extraction_unchanged_by_serialization (F := Q) detour_all_ok sample_result
           (inject_Z 2) (inject_Z 1) (inject_Z 1) detour_ok_final extract_all_ok
           eq_refl).
Defined.

Lemma sample_polygons_in_range : polygons_in_range (F := Q) sample_mesh.
Proof.
  intros i Hi. cbn in Hi.
  assert (Hcases : i = 0 \/ i = 1) by lia.
  destruct Hcases as [-> | ->]; vm_compute; split;
    try (intros Hle; discriminate Hle || (repeat apply le_S_n in Hle; inversion Hle));
    repeat constructor; discriminate.
Qed.

Lemma triangle_indices_in_range_sample :
  exists em,
    bindingExtractVertsAndTriangles (F := Q) extract_all_ok sample_result = Ret em /\
    Forall (fun v => 0 <= v < BindingVertsAndTriangles.nverts em)
      (BindingVertsAndTriangles.triangles em) /\
    Z.of_nat (length (BindingVertsAndTriangles.verts em))
    = 4 * BindingVertsAndTriangles.nverts em /\
    BindingVertsAndTriangles.ntris em
    = 3 * Z.of_nat
            (list_sum
               (map (fun i => (length (valid_slots (polygon (F := Q) sample_mesh i)) - 2)%nat)
                  (seqZ 0 (rcPolyMesh.npolys (F := Q) sample_mesh)))).
Proof.
  exact (triangle_indices_in_range (F := Q) extract_all_ok sample_result sample_mesh
           eq_refl sample_mesh_wf sample_polygons_in_range eq_refl eq_refl eq_refl).
Defined.

Lemma freeVertsAndTriangles_after_extraction_sample :
  exists released,
    freeVertsAndTriangles
      (eh_ret (bindingExtractVertsAndTriangles_heap (F := Q) extract_all_ok sample_result))
    = Ret released /\
    forall b,
      mem_allocs b
        (eh_trace (bindingExtractVertsAndTriangles_heap (F := Q) extract_all_ok
                     sample_result) ++ released) = 1%nat /\
      mem_frees b
        (eh_trace (bindingExtractVertsAndTriangles_heap (F := Q) extract_all_ok
                     sample_result) ++ released) = 1%nat.
Proof.
  exact (freeVertsAndTriangles_after_extraction (F := Q) extract_all_ok sample_result
           sample_extracted eq_refl).
Defined.

Lemma extraction_outcome_on_a_well_formed_mesh_sample :
  bindingExtractVertsAndTriangles (F := Q) extract_no_triangles sample_result
  = if calloc_ret_ok extract_no_triangles then
      if calloc_verts_ok extract_no_triangles && calloc_triangles_ok extract_no_triangles
      then
        Ret (BindingVertsAndTriangles.mk (rcPolyMesh.nverts (F := Q) sample_mesh)
               (Z.of_nat (length (spec_triangles (F := Q) sample_mesh 0
                                    (Z.to_nat (rcPolyMesh.npolys (F := Q) sample_mesh)))))
               (spec_verts sample_mesh 0 (Z.to_nat (rcPolyMesh.nverts (F := Q) sample_mesh)))
               (spec_triangles sample_mesh 0
                  (Z.to_nat (rcPolyMesh.npolys (F := Q) sample_mesh))))
      else Null
    else Fault.
Proof.
  exact (extraction_outcome_on_a_well_formed_mesh (F := Q) extract_no_triangles
           sample_result sample_mesh eq_refl sample_mesh_wf).
Defined.
